(** * Lifecycle-config custom resource: a shallow embedding of
    [src/lifecycle_config.py] and the properties of its handler.

    The Python module is a CloudFormation custom-resource handler.  It talks to
    one external collaborator, the SageMaker control plane, through a [boto3]
    client, and reports its outcome through [cfnresponse.send].  The embedding
    keeps that shape:

    - Python [str] values are [string]s, one character per code point (code
      points below 256); [int] values are [Z];
    - the control plane is a record of operations over an abstract state, each
      returning either a response or a raised exception;
    - the handler runs in a small monad of its own that threads the control
      plane state, writes the trace of visible effects (client calls, sleeps,
      notifications) and carries Python exceptions;
    - the polling loop [while True] of [update_domain] is driven by fuel, and
      running out of fuel is a third outcome, kept apart from returning and
      from raising.

    The [logger] calls and the Lambda [context] argument take no part in what
    the handler decides and are left out. *)

From Stdlib Require Import ZArith Lia Ascii.
From stdpp Require Import prelude strings pretty.

Local Open Scope Z_scope.

(** ** Python strings *)

Module PyStr.

(** The double quote and the line feed, which the string notation cannot
    spell inside a literal. *)
Definition dq : string := String (Ascii.ascii_of_nat 34) EmptyString.
Definition nl : string := String (Ascii.ascii_of_nat 10) EmptyString.

(** A triple-quoted literal whose every line, the last one too, ends with a
    line feed. *)
Fixpoint unlines (ls : list string) : string :=
  match ls with
  | [] => EmptyString
  | l :: ls' => l +:+ nl +:+ unlines ls'
  end.

Fixpoint is_prefix (p s : string) : bool :=
  match p, s with
  | EmptyString, _ => true
  | String a p', String b s' => if Ascii.eqb a b then is_prefix p' s' else false
  | String _ _, EmptyString => false
  end.

(** [replace_from old new skip s]: the scan of [str.replace], left to right
    over [s]; [skip] counts the characters of a match just replaced that are
    still to be passed over, so that matches never overlap. *)
Fixpoint replace_from (old new : string) (skip : nat) (s : string) : string :=
  match s with
  | EmptyString =>
      match skip, old with
      | O, EmptyString => new
      | _, _ => EmptyString
      end
  | String c s' =>
      match skip with
      | S k => replace_from old new k s'
      | O =>
          if is_prefix old s
          then new +:+
               match old with
               | EmptyString => String c (replace_from old new 0 s')
               | String _ old' => replace_from old new (String.length old') s'
               end
          else String c (replace_from old new 0 s')
      end
  end.

(** [s.replace(old, new)]: every non-overlapping occurrence, leftmost
    first. *)
Definition replace (s old new : string) : string := replace_from old new 0 s.

(** Number of positions of [s] at which [p] starts. *)
Fixpoint occurrences (p s : string) : nat :=
  match s with
  | EmptyString => 0%nat
  | String _ s' => ((if is_prefix p s then 1 else 0) + occurrences p s')%nat
  end.

(** [str(n)] for an [int]: decimal digits, a leading minus sign for a
    negative number. *)
Definition str (n : Z) : string := pretty n.

(** [s.lower()] on code points below 256: the letters A-Z and the Latin-1
    capitals (U+00C0 to U+00DE, the multiplication sign U+00D7 apart) move
    down by 32; everything else stays. *)
Definition lower_char (c : ascii) : ascii :=
  let n := Ascii.N_of_ascii c in
  if ((65 <=? n) && (n <=? 90))%N
     || ((192 <=? n) && (n <=? 222) && negb (n =? 215))%N
  then Ascii.ascii_of_N (n + 32)
  else c.

Fixpoint lower (s : string) : string :=
  match s with
  | EmptyString => EmptyString
  | String c s' => String (lower_char c) (lower s')
  end.

End PyStr.
Import PyStr.

(** ** The two script templates

    Both are triple-quoted literals opened with a backslash, so the text starts
    on the line after the opening quotes.  [LCC_TEMPLATE] is not a raw literal:
    the three lines of the docker repository entry that end with a backslash
    continue on the next line, backslash and line feed both dropped. *)

Definition PLACEHOLDER : string := "__AUTO_STOP_IDLE_TIME__".

Definition AUTO_STOP_COMMAND_TEMPLATE : string :=
  unlines [
    "ASI_VERSION=0.3.1";
    EmptyString;
    "# System variables [do not change if not needed]";
    "CONDA_HOME=/opt/conda/bin";
    "LOG_FILE=/var/log/apps/app_container.log # Writing to app_container.log delivers logs to CW logs.";
    "SOLUTION_DIR=/var/tmp/auto-stop-idle # Do not use /home/sagemaker-user";
    "PYTHON_PACKAGE=sagemaker_code_editor_auto_shut_down-$ASI_VERSION.tar.gz";
    "PYTHON_SCRIPT_PATH=$SOLUTION_DIR/sagemaker_code_editor_auto_shut_down/auto_stop_idle.py";
    EmptyString;
    "# Installing cron";
    "sudo apt-get update -y";
    "sudo apt-get install -y -q vim";
    EmptyString;
    "# Issue - https://github.com/aws-samples/sagemaker-studio-apps-lifecycle-config-examples/issues/12";
    "# SM Distribution image 1.6 is not starting cron service by default https://github.com/aws/sagemaker-distribution/issues/354";
    EmptyString;
    "# Check if cron needs to be installed";
    "status=" +:+ dq +:+ "$(dpkg-query -W --showformat='${db:Status-Status}' " +:+ dq +:+ "cron" +:+ dq +:+ " 2>&1)" +:+ dq;
    "if [ ! $? = 0 ] || [ ! " +:+ dq +:+ "$status" +:+ dq +:+ " = installed ]; then";
    "    # Fixing invoke-rc.d: policy-rc.d denied execution of restart.";
    "    sudo /bin/bash -c " +:+ dq +:+ "echo '#!/bin/sh";
    "    exit 0' > /usr/sbin/policy-rc.d" +:+ dq;
    EmptyString;
    "    # Installing cron.";
    "    echo " +:+ dq +:+ "Installing cron..." +:+ dq;
    "    sudo apt install cron";
    "else";
    "    echo " +:+ dq +:+ "Package cron is already installed." +:+ dq;
    "    sudo cron";
    "fi";
    EmptyString;
    "# Creating solution directory.";
    "sudo mkdir -p $SOLUTION_DIR";
    EmptyString;
    "# Downloading autostop idle Python package.";
    "echo " +:+ dq +:+ "Downloading autostop idle Python package..." +:+ dq;
    "curl -LO --output-dir /var/tmp/ https://github.com/aws-samples/sagemaker-studio-apps-lifecycle-config-examples/releases/download/v$ASI_VERSION/$PYTHON_PACKAGE";
    "sudo $CONDA_HOME/pip install -U -t $SOLUTION_DIR /var/tmp/$PYTHON_PACKAGE";
    EmptyString;
    "# Touch file to ensure idleness timer is reset to 0";
    "echo " +:+ dq +:+ "Touching file to reset idleness timer" +:+ dq;
    "touch /opt/amazon/sagemaker/sagemaker-code-editor-server-data/data/User/History/startup_timestamp";
    EmptyString;
    "# Setting container credential URI variable to /etc/environment to make it available to cron";
    "sudo /bin/bash -c " +:+ dq +:+ "echo 'AWS_CONTAINER_CREDENTIALS_RELATIVE_URI=$AWS_CONTAINER_CREDENTIALS_RELATIVE_URI' >> /etc/environment" +:+ dq;
    EmptyString;
    "# Add script to crontab for root.";
    "echo " +:+ dq +:+ "Adding autostop idle Python script to crontab..." +:+ dq;
    "echo " +:+ dq +:+ "*/2 * * * * /bin/bash -ic '$CONDA_HOME/python $PYTHON_SCRIPT_PATH --time __AUTO_STOP_IDLE_TIME__ --region $AWS_DEFAULT_REGION >> $LOG_FILE'" +:+ dq +:+ " | sudo crontab -"
  ].

Definition LCC_TEMPLATE : string :=
  unlines [
    "#!/bin/bash";
    "set -eux";
    "echo 'debconf debconf/frontend select Noninteractive' | sudo debconf-set-selections";
    "sudo apt update -qq && sudo apt upgrade -y -qq";
    EmptyString;
    "# install php";
    "sudo apt install -y -qq software-properties-common ca-certificates lsb-release apt-transport-https";
    "LC_ALL=C.UTF-8 sudo add-apt-repository -y ppa:ondrej/php";
    "sudo apt update -qq";
    "sudo apt install -y -qq php8.2 php8.2-cli php8.2-common php8.2-fpm php8.2-mysql php8.2-zip php8.2-gd php8.2-mbstring php8.2-curl php8.2-xml php8.2-bcmath";
    "sudo apt install -y -qq sqlite3 mysql-server";
    EmptyString;
    "# install java";
    "wget -O - https://apt.corretto.aws/corretto.key | sudo gpg --dearmor -o /usr/share/keyrings/corretto-keyring.gpg";
    "echo " +:+ dq +:+ "deb [signed-by=/usr/share/keyrings/corretto-keyring.gpg] https://apt.corretto.aws stable main" +:+ dq +:+ " | sudo tee /etc/apt/sources.list.d/corretto.list";
    "sudo apt update -qq";
    "sudo apt install -y -qq java-17-amazon-corretto-jdk";
    EmptyString;
    "# install docker";
    "sudo apt update -qq";
    "sudo apt install -y -qq ca-certificates curl";
    "sudo install -m 0755 -d /etc/apt/keyrings";
    "sudo curl -fsSL https://download.docker.com/linux/ubuntu/gpg -o /etc/apt/keyrings/docker.asc";
    "sudo chmod a+r /etc/apt/keyrings/docker.asc";
    "echo " +:+ dq +:+ "deb [arch=$(dpkg --print-architecture) signed-by=/etc/apt/keyrings/docker.asc] https://download.docker.com/linux/ubuntu $(. /etc/os-release && echo " +:+ dq +:+ "$VERSION_CODENAME" +:+ dq +:+ ") stable" +:+ dq +:+ " | sudo tee /etc/apt/sources.list.d/docker.list > /dev/null";
    "sudo apt update -qq";
    "sudo apt install -y -qq docker-ce docker-ce-cli docker-buildx-plugin docker-compose-plugin"
  ].

(** ** Bytes: UTF-8 and base64 *)

Module Codec.

Definition bytes : Type := list Byte.byte.

Definition byte_of_N (n : N) : Byte.byte :=
  match Byte.of_N n with
  | Some b => b
  | None => Byte.x00
  end.

(** [s.encode("utf-8")] on code points below 256: one byte below 128, two
    bytes from 128 on. *)
Definition encode_char (c : ascii) : bytes :=
  let n := Ascii.N_of_ascii c in
  if (n <? 128)%N then [byte_of_N n]
  else [byte_of_N (N.lor 192 (N.shiftr n 6)); byte_of_N (N.lor 128 (N.land n 63))].

Fixpoint encode_utf8 (s : string) : bytes :=
  match s with
  | EmptyString => []
  | String c s' => encode_char c ++ encode_utf8 s'
  end.

(** [b.decode("utf-8")], for byte strings that decode to code points below
    256; [None] stands for every other input (a malformed sequence raises
    [UnicodeDecodeError] in Python). *)
Fixpoint decode_utf8 (bs : bytes) : option string :=
  match bs with
  | [] => Some EmptyString
  | b :: bs' =>
      let n := Byte.to_N b in
      if (n <? 128)%N then
        match decode_utf8 bs' with
        | Some s => Some (String (Ascii.ascii_of_N n) s)
        | None => None
        end
      else if ((n =? 194) || (n =? 195))%N then
        match bs' with
        | b2 :: bs'' =>
            let n2 := Byte.to_N b2 in
            if ((128 <=? n2) && (n2 <? 192))%N then
              match decode_utf8 bs'' with
              | Some s =>
                  Some (String (Ascii.ascii_of_N
                                  (N.lor (N.shiftl (N.land n 31) 6) (N.land n2 63))) s)
              | None => None
              end
            else None
        | [] => None
        end
      else None
  end.

Definition b64_alphabet : string :=
  "ABCDEFGHIJKLMNOPQRSTUVWXYZabcdefghijklmnopqrstuvwxyz0123456789+/".

(** The byte of the alphabet for a 6-bit value. *)
Definition b64_digit (i : N) : Byte.byte :=
  match String.get (N.to_nat i) b64_alphabet with
  | Some c => Ascii.byte_of_ascii c
  | None => Byte.x00
  end.

Definition b64_pad : Byte.byte := Ascii.byte_of_ascii "=".

(** [base64.b64encode]: three bytes give four digits; a last group of one or
    two bytes is padded with [=]. *)
Fixpoint b64encode (bs : bytes) : bytes :=
  match bs with
  | [] => []
  | [a] =>
      let a := Byte.to_N a in
      [b64_digit (N.shiftr a 2); b64_digit (N.shiftl (N.land a 3) 4); b64_pad; b64_pad]
  | [a; b] =>
      let a := Byte.to_N a in
      let b := Byte.to_N b in
      [b64_digit (N.shiftr a 2);
       b64_digit (N.lor (N.shiftl (N.land a 3) 4) (N.shiftr b 4));
       b64_digit (N.shiftl (N.land b 15) 2);
       b64_pad]
  | a :: b :: c :: rest =>
      let a := Byte.to_N a in
      let b := Byte.to_N b in
      let c := Byte.to_N c in
      b64_digit (N.shiftr a 2)
      :: b64_digit (N.lor (N.shiftl (N.land a 3) 4) (N.shiftr b 4))
      :: b64_digit (N.lor (N.shiftl (N.land b 15) 2) (N.shiftr c 6))
      :: b64_digit (N.land c 63)
      :: b64encode rest
  end.

(** The string that has one character per byte. *)
Fixpoint string_of_bytes (bs : bytes) : string :=
  match bs with
  | [] => EmptyString
  | b :: bs' => String (Ascii.ascii_of_byte b) (string_of_bytes bs')
  end.

End Codec.
Import Codec.

(** ** Exceptions *)

Inductive exn : Type :=
| ValueError (msg : string)
| RuntimeError (msg : string)
| KeyError (key : string)
| UnicodeDecodeError (msg : string)
| ResourceNotFound (msg : string)   (* [sagemaker.exceptions.ResourceNotFound] *)
| ClientError (msg : string).       (* every other error the client raises *)

(** [str(e)].  A [KeyError] prints the [repr] of its key. *)
Definition exn_str (e : exn) : string :=
  match e with
  | ValueError msg | RuntimeError msg | UnicodeDecodeError msg
  | ResourceNotFound msg | ClientError msg => msg
  | KeyError key => "'" +:+ key +:+ "'"
  end.

Inductive result (A : Type) : Type :=
| Ok (a : A)
| Err (e : exn).
Arguments Ok {A} a.
Arguments Err {A} e.

(** ** The control plane client *)

Module Client.

Record lifecycle_config : Type := {
  StudioLifecycleConfigArn : string;
  StudioLifecycleConfigName : string;
  StudioLifecycleConfigAppType : string
}.

Record domain : Type := {
  DomainArn : string;
  Status : string
}.

(** The six operations of the [boto3] client that the module uses, over the
    state [W] of the control plane.  Each call may change that state and
    either answers or raises. *)
Record t (W : Type) : Type := {
  create_studio_lifecycle_config :
    string -> string -> string -> W -> W * result lifecycle_config;
  describe_studio_lifecycle_config : string -> W -> W * result lifecycle_config;
  list_studio_lifecycle_configs : string -> W -> W * result (list lifecycle_config);
  delete_studio_lifecycle_config : string -> W -> W * result unit;
  update_domain : string -> string -> W -> W * result unit;
  describe_domain : string -> W -> W * result domain
}.
Arguments create_studio_lifecycle_config {W} _ _ _ _ _.
Arguments describe_studio_lifecycle_config {W} _ _ _.
Arguments list_studio_lifecycle_configs {W} _ _ _.
Arguments delete_studio_lifecycle_config {W} _ _ _.
Arguments update_domain {W} _ _ _ _.
Arguments describe_domain {W} _ _ _.

(** A call as it is seen from outside: the operation and its keyword
    arguments. *)
Inductive call : Type :=
| CreateStudioLifecycleConfig (name content app_type : string)
| DescribeStudioLifecycleConfig (name : string)
| ListStudioLifecycleConfigs (app_type_equals : string)
| DeleteStudioLifecycleConfig (name : string)
| UpdateDomain (domain_id enable_docker_access : string)
| DescribeDomain (domain_id : string).

(** Create, delete and update change the control plane; describe and list
    read it. *)
Definition mutates (c : call) : bool :=
  match c with
  | CreateStudioLifecycleConfig _ _ _ | DeleteStudioLifecycleConfig _ | UpdateDomain _ _ => true
  | DescribeStudioLifecycleConfig _ | ListStudioLifecycleConfigs _ | DescribeDomain _ => false
  end.

End Client.

(** ** Notifications and the trace of effects *)

Inductive response_status : Type := SUCCESS | FAILED.

(** The arguments of one [cfnresponse.send]: status, data, physical resource
    id ([None] when Python passes [None]) and the [reason] keyword. *)
Record notification : Type := {
  responseStatus : response_status;
  responseData : list (string * string);
  physicalResourceId : option string;
  reason : option string
}.

Inductive effect : Type :=
| Call (c : Client.call)
| Sleep (seconds : Z)
| Send (n : notification).

Definition trace : Type := list effect.

Definition is_delete (e : effect) : bool :=
  match e with Call (Client.DeleteStudioLifecycleConfig _) => true | _ => false end.

Definition sends (t : trace) : list notification :=
  omap (fun e => match e with Send n => Some n | _ => None end) t.

Definition calls (t : trace) : list Client.call :=
  omap (fun e => match e with Call c => Some c | _ => None end) t.

(** ** The monad of the handler

    A computation takes the state of the control plane and gives the new state,
    the effects it has performed, in order, and how it ended. *)

Inductive outcome (A : Type) : Type :=
| Returns (a : A)
| Raises (e : exn)
| OutOfFuel.        (* the polling loop has not ended within the fuel *)
Arguments Returns {A} a.
Arguments Raises {A} e.
Arguments OutOfFuel {A}.

Definition Py (W A : Type) : Type := W -> W * trace * outcome A.

Definition ret {W A} (a : A) : Py W A := fun w => (w, [], Returns a).

Definition raise {W A} (e : exn) : Py W A := fun w => (w, [], Raises e).

Definition out_of_fuel {W A} : Py W A := fun w => (w, [], OutOfFuel).

Definition bind {W A B} (m : Py W A) (k : A -> Py W B) : Py W B :=
  fun w =>
    match m w with
    | (w1, t1, Returns a) => let '(w2, t2, r) := k a w1 in (w2, t1 ++ t2, r)
    | (w1, t1, Raises e) => (w1, t1, Raises e)
    | (w1, t1, OutOfFuel) => (w1, t1, OutOfFuel)
    end.

(** [try: m except Exception as e: h e]. *)
Definition try_except {W A} (m : Py W A) (h : exn -> Py W A) : Py W A :=
  fun w =>
    match m w with
    | (w1, t1, Raises e) => let '(w2, t2, r) := h e w1 in (w2, t1 ++ t2, r)
    | other => other
    end.

Definition perform {W} (e : effect) : Py W unit := fun w => (w, [e], Returns tt).

(** A client call: recorded in the trace, then its answer or its exception. *)
Definition invoke {W A} (c : Client.call) (op : W -> W * result A) : Py W A :=
  fun w =>
    let '(w', r) := op w in
    (w', [Call c], match r with Ok a => Returns a | Err e => Raises e end).

Notation "x <- m ;; k" := (bind m (fun x => k))
  (at level 100, m at next level, right associativity).
Notation "m ;; k" := (bind m (fun _ => k))
  (at level 100, right associativity).

(** ** The lifecycle event

    The event of the data model: [RequestType] as the string the handler
    compares, the three resource properties the handler reads, and the
    physical resource id, which a Create event does not carry.
    [AutoStopIdleTimeInMinutes] is given as the integer that [int(...)] yields
    for it.  The four assignments that open [lambda_handler], before its [try]
    statement, only read these fields. *)

Record resource_properties : Type := {
  DomainId : string;
  LifecycleConfigName : string;
  AutoStopIdleTimeInMinutes : Z
}.

Record event : Type := {
  RequestType : string;
  ResourceProperties : resource_properties;
  PhysicalResourceId : option string
}.

(** ** The handler *)

Definition APP_TYPE : string := "CodeEditor".

Definition UNSUPPORTED_UPDATE : string :=
  "The update of 'AutoStopIdleTimeInMinutes' is not supported. Please recreate the stack instead.".

(** The value of the local [lcc] when [create_lifecycle_config] calls the
    client: the base script, and the auto-stop script after it when
    [idle_mins > 0]. *)
Definition lcc (idle_mins : Z) : string :=
  if 0 <? idle_mins
  then LCC_TEMPLATE +:+ nl +:+ replace AUTO_STOP_COMMAND_TEMPLATE PLACEHOLDER (str (60 * idle_mins))
  else LCC_TEMPLATE.

(** [f"{domain_id}_{str(idle_mins)}"] *)
Definition physical_resource_id (ev : event) : string :=
  DomainId (ResourceProperties ev) +:+ "_" +:+ str (AutoStopIdleTimeInMinutes (ResourceProperties ev)).

Definition lifecycle_config_name (ev : event) : string :=
  lower (LifecycleConfigName (ResourceProperties ev)).

Section Handler.

Context {W : Type} (sagemaker : Client.t W).

Definition cfnresponse_send (st : response_status) (data : list (string * string))
    (pid : option string) (why : option string) : Py W unit :=
  perform (Send {| responseStatus := st; responseData := data;
                   physicalResourceId := pid; reason := why |}).

Definition send_failure (ev : event) (e : exn) : Py W unit :=
  cfnresponse_send FAILED [("Error", exn_str e)] (PhysicalResourceId ev) (Some (exn_str e)).

Definition send_success (ev : event) (data : list (string * string)) (pid : string)
    : Py W unit :=
  cfnresponse_send SUCCESS data (Some pid) None.

Definition create_lifecycle_config (name : string) (idle_mins : Z)
    : Py W Client.lifecycle_config :=
  match decode_utf8 (b64encode (encode_utf8 (lcc idle_mins))) with
  | Some content =>
      invoke (Client.CreateStudioLifecycleConfig name content APP_TYPE)
             (Client.create_studio_lifecycle_config sagemaker name content APP_TYPE)
  | None => raise (UnicodeDecodeError "'utf-8' codec can't decode byte")
  end.

Definition delete_lifecycle_config (name : string) : Py W unit :=
  try_except
    (invoke (Client.DeleteStudioLifecycleConfig name)
            (Client.delete_studio_lifecycle_config sagemaker name))
    (fun e =>
       match e with
       | ResourceNotFound _ => ret tt
       | _ => raise e
       end).

(** The [while True] loop of [update_domain], one iteration per unit of
    fuel. *)
Fixpoint update_domain_loop (fuel : nat) (domain_id : string) : Py W Client.domain :=
  match fuel with
  | O => out_of_fuel
  | S fuel' =>
      res <- invoke (Client.DescribeDomain domain_id)
                    (Client.describe_domain sagemaker domain_id) ;;
      let status := Client.Status res in
      if decide (status = "InService") then ret res
      else if decide (status ∈ ["Failed"; "Update_Failed"; "Delete_Failed"])
      then raise (RuntimeError ("Space is in '" +:+ status +:+ "' state."))
      else perform (Sleep 10) ;; update_domain_loop fuel' domain_id
  end.

Definition update_domain (fuel : nat) (domain_id : string) : Py W Client.domain :=
  invoke (Client.UpdateDomain domain_id "ENABLED")
         (Client.update_domain sagemaker domain_id "ENABLED") ;;
  update_domain_loop fuel domain_id.

(** The body of the [try] statement of [lambda_handler]. *)
Definition try_body (fuel : nat) (ev : event) : Py W unit :=
  let domain_id := DomainId (ResourceProperties ev) in
  let request_type := RequestType ev in
  if decide (request_type = "Create") then
    res <- create_lifecycle_config (lifecycle_config_name ev)
                                   (AutoStopIdleTimeInMinutes (ResourceProperties ev)) ;;
    update_domain fuel domain_id ;;
    send_success ev [("Arn", Client.StudioLifecycleConfigArn res)] (physical_resource_id ev)
  else if decide (request_type = "Update") then
    prior <- match PhysicalResourceId ev with
             | Some p => ret p
             | None => raise (KeyError "PhysicalResourceId")
             end ;;
    (if decide (physical_resource_id ev <> prior)
     then raise (ValueError UNSUPPORTED_UPDATE)
     else ret tt) ;;
    res <- invoke (Client.DescribeStudioLifecycleConfig (lifecycle_config_name ev))
                  (Client.describe_studio_lifecycle_config sagemaker
                     (lifecycle_config_name ev)) ;;
    send_success ev [("Arn", Client.StudioLifecycleConfigArn res)] (physical_resource_id ev)
  else if decide (request_type = "Delete") then
    lcs <- invoke (Client.ListStudioLifecycleConfigs APP_TYPE)
                  (Client.list_studio_lifecycle_configs sagemaker APP_TYPE) ;;
    let lifecycle_config_names := map Client.StudioLifecycleConfigName lcs in
    (if decide (lifecycle_config_name ev ∈ lifecycle_config_names)
     then delete_lifecycle_config (lifecycle_config_name ev)
     else ret tt) ;;
    send_success ev [] (physical_resource_id ev)
  else ret tt.

Definition lambda_handler (fuel : nat) (ev : event) : Py W unit :=
  try_except (try_body fuel ev) (send_failure ev).

(** [describes d w rs w']: from the state [w], successive [describe_domain]
    calls answer [rs], in this order, and leave the control plane in [w']. *)
Inductive describes (d : string) : W -> list Client.domain -> W -> Prop :=
| describes_nil w : describes d w [] w
| describes_cons w w1 r rs w' :
    Client.describe_domain sagemaker d w = (w1, Ok r) ->
    describes d w1 rs w' ->
    describes d w (r :: rs) w'.


End Handler.

Definition failure_status (s : string) : Prop :=
  s ∈ ["Failed"; "Update_Failed"; "Delete_Failed"].

Definition polling_status (s : string) : Prop :=
  s ∈ ["Pending"; "Updating"; "Deleting"].

(** The text that [create_lifecycle_config] passes as
    [StudioLifecycleConfigContent]: the base64 digits of the script's UTF-8
    bytes, read back as a string. *)
Definition config_content (idle_mins : Z) : string :=
  string_of_bytes (b64encode (encode_utf8 (lcc idle_mins))).

(** What [send_failure] and [send_success] hand to [cfnresponse.send]. *)
Definition failure_notification (ev : event) (e : exn) : notification :=
  {| responseStatus := FAILED; responseData := [("Error", exn_str e)];
     physicalResourceId := PhysicalResourceId ev; reason := Some (exn_str e) |}.

Definition success_notification (data : list (string * string)) (pid : string) : notification :=
  {| responseStatus := SUCCESS; responseData := data;
     physicalResourceId := Some pid; reason := None |}.

(** The effects of [n] rounds of the loop that end in a sleep. *)
Definition polls (d : string) (n : nat) : trace :=
  concat (replicate n [Call (Client.DescribeDomain d); Sleep 10]).

(** A trace whose last effect is a notification, the only one. *)
Definition delivered_once (t : trace) : Prop :=
  exists t0 n, t = t0 ++ [Send n] /\ sends t0 = [].

(** ** A scripted control plane

    A small in-memory control plane, enough to run the handler: lifecycle
    configurations live in a list; a domain answers [describe_domain] with the
    statuses of a script, one per call, and with [steady] once the script is
    used up. *)

Module Fake.

Record world : Type := {
  configs : list Client.lifecycle_config;
  script : list string;
  steady : string
}.

Definition arn_of (name : string) : string :=
  "arn:aws:sagemaker:eu-west-1:111122223333:studio-lifecycle-config/" +:+ name.

Definition has_name (name : string) (c : Client.lifecycle_config) : bool :=
  bool_decide (Client.StudioLifecycleConfigName c = name).

Definition create (name content app_type : string) (w : world)
    : world * result Client.lifecycle_config :=
  if existsb (has_name name) (configs w)
  then (w, Err (ClientError ("ResourceInUse: " +:+ name)))
  else
    let c := {| Client.StudioLifecycleConfigArn := arn_of name;
                Client.StudioLifecycleConfigName := name;
                Client.StudioLifecycleConfigAppType := app_type |} in
    ({| configs := configs w ++ [c]; script := script w; steady := steady w |}, Ok c).

Definition describe (name : string) (w : world) : world * result Client.lifecycle_config :=
  match find (has_name name) (configs w) with
  | Some c => (w, Ok c)
  | None => (w, Err (ResourceNotFound ("ResourceNotFound: " +:+ name)))
  end.

Definition list_configs (app_type : string) (w : world)
    : world * result (list Client.lifecycle_config) :=
  (w, Ok (filter (fun c => Client.StudioLifecycleConfigAppType c = app_type) (configs w))).

Definition delete (name : string) (w : world) : world * result unit :=
  if existsb (has_name name) (configs w)
  then ({| configs := filter (fun c => Client.StudioLifecycleConfigName c <> name) (configs w);
           script := script w; steady := steady w |}, Ok tt)
  else (w, Err (ResourceNotFound ("ResourceNotFound: " +:+ name))).

Definition update (domain_id enable : string) (w : world) : world * result unit :=
  (w, Ok tt).

Definition describe_dom (domain_id : string) (w : world) : world * result Client.domain :=
  match script w with
  | s :: rest =>
      ({| configs := configs w; script := rest; steady := steady w |},
       Ok {| Client.DomainArn := domain_id; Client.Status := s |})
  | [] => (w, Ok {| Client.DomainArn := domain_id; Client.Status := steady w |})
  end.

Definition sagemaker : Client.t world := {|
  Client.create_studio_lifecycle_config := create;
  Client.describe_studio_lifecycle_config := describe;
  Client.list_studio_lifecycle_configs := list_configs;
  Client.delete_studio_lifecycle_config := delete;
  Client.update_domain := update;
  Client.describe_domain := describe_dom
|}.

(** No configuration yet; the domain is updating for two polls, then in
    service. *)
Definition fresh : world :=
  {| configs := []; script := ["Updating"; "Pending"]; steady := "InService" |}.


(** A domain whose update fails after one poll. *)
Definition failing : world :=
  {| configs := []; script := ["Updating"]; steady := "Update_Failed" |}.

Definition props : resource_properties :=
  {| DomainId := "d-1"; LifecycleConfigName := "MyConfig"; AutoStopIdleTimeInMinutes := 30 |}.

Definition create_event : event :=
  {| RequestType := "Create"; ResourceProperties := props; PhysicalResourceId := None |}.

Definition update_event (prior : option string) : event :=
  {| RequestType := "Update"; ResourceProperties := props; PhysicalResourceId := prior |}.

Definition delete_event : event :=
  {| RequestType := "Delete"; ResourceProperties := props; PhysicalResourceId := Some "d-1_30" |}.

(** The configuration that a Create of [props] makes, and the world that holds
    it once the domain is in service. *)
Definition config : Client.lifecycle_config :=
  {| Client.StudioLifecycleConfigArn := arn_of "myconfig";
     Client.StudioLifecycleConfigName := "myconfig";
     Client.StudioLifecycleConfigAppType := "CodeEditor" |}.

Definition provisioned : world :=
  {| configs := [config]; script := []; steady := "InService" |}.

Definition domain_in (status : string) : Client.domain :=
  {| Client.DomainArn := "d-1"; Client.Status := status |}.

End Fake.

(** The template around its placeholder: what [s.partition(sep)] gives, the
    text before the first occurrence of [sep] and the text after it. *)
Fixpoint partition (sep s : string) : option (string * string) :=
  match s with
  | EmptyString => if is_prefix sep s then Some (EmptyString, EmptyString) else None
  | String c s' =>
      if is_prefix sep s then Some (EmptyString, String.substring (String.length sep)
                                                   (String.length s - String.length sep) s)
      else match partition sep s' with
           | Some (h, t) => Some (String c h, t)
           | None => None
           end
  end.

Definition auto_stop_parts : string * string :=
  Eval vm_compute in default (EmptyString, EmptyString)
                             (partition PLACEHOLDER AUTO_STOP_COMMAND_TEMPLATE).

(** ** Characters of a string *)

(** [c in s] for a one-character [c]. *)
Fixpoint mentions (c : ascii) (s : string) : bool :=
  match s with
  | EmptyString => false
  | String a s' => if Ascii.eqb c a then true else mentions c s'
  end.

(** [s[-1]], when [s] is not empty. *)
Fixpoint last_char (s : string) : option ascii :=
  match s with
  | EmptyString => None
  | String a EmptyString => Some a
  | String _ s' => last_char s'
  end.

(** The characters of base64 text: the alphabet and the padding sign. *)
Definition is_b64_char (c : ascii) : bool :=
  mentions c b64_alphabet || Ascii.eqb c "=".

(** The characters that [str] of an integer is made of. *)
Definition is_numeral_char (c : ascii) : bool := mentions c "0123456789-".

(** ** The statuses that end the polling loop *)

Definition TERMINAL : list string := ["InService"; "Failed"; "Update_Failed"; "Delete_Failed"].

(** ** The template generator ([src/generate.py])

    [generate] reads the template text, replaces the name-suffix token in it
    and hands the result to [yaml.safe_load]; [named_template] is that
    argument.  The rest of [generate] is file and YAML input and output. *)

Definition NAME_TOKEN : string := "__NAME__SUFFIX__".

Definition NAME_SUFFIX : string :=
  "Fn::Select: [0, Fn::Split: [" +:+ dq +:+ "-" +:+ dq +:+ ",Fn::Select: [2, Fn::Split: ["
  +:+ dq +:+ "/" +:+ dq +:+ ", Ref: " +:+ dq +:+ "AWS::StackId" +:+ dq +:+ "]] ]]".

Definition named_template (template_str : string) : string :=
  replace template_str NAME_TOKEN NAME_SUFFIX.

(** ** A control plane with faults

    The scripted control plane with one operation that raises: used to run the
    handler on its error paths. *)

Module Faulty.

Inductive fault : Type :=
| ListFails
| DeleteFails
| UpdateDomainFails
| DescribeDomainFails.   (* once the script of statuses is used up *)

Definition throttled : exn := ClientError "ThrottlingException: Rate exceeded".

Definition sagemaker (f : fault) : Client.t Fake.world := {|
  Client.create_studio_lifecycle_config := Fake.create;
  Client.describe_studio_lifecycle_config := Fake.describe;
  Client.list_studio_lifecycle_configs :=
    fun app_type w =>
      match f with
      | ListFails => (w, Err throttled)
      | _ => Fake.list_configs app_type w
      end;
  Client.delete_studio_lifecycle_config :=
    fun name w =>
      match f with
      | DeleteFails => (w, Err throttled)
      | _ => Fake.delete name w
      end;
  Client.update_domain :=
    fun domain_id enable w =>
      match f with
      | UpdateDomainFails => (w, Err throttled)
      | _ => Fake.update domain_id enable w
      end;
  Client.describe_domain :=
    fun domain_id w =>
      match f, Fake.script w with
      | DescribeDomainFails, [] => (w, Err throttled)
      | _, _ => Fake.describe_dom domain_id w
      end
|}.

End Faulty.

(** * Properties *)

(** ** The model on small inputs *)

Example replace_all_occurrences : replace "a-b-c" "-" "+" = "a+b+c".
Proof. reflexivity. Qed.

Example replace_no_overlap : replace "aaa" "aa" "b" = "ba".
Proof. reflexivity. Qed.

Example replace_empty_old : replace "abc" EmptyString "-" = "-a-b-c-".
Proof. reflexivity. Qed.

Example lower_mixed : lower "MyConfig-01" = "myconfig-01".
Proof. reflexivity. Qed.

Example str_examples : str 30 = "30" /\ str 0 = "0" /\ str (-5) = "-5" /\ str 1800 = "1800".
Proof. repeat split; reflexivity. Qed.

Example templates_length :
  String.length AUTO_STOP_COMMAND_TEMPLATE = 2237%nat /\ String.length LCC_TEMPLATE = 1508%nat
  /\ occurrences PLACEHOLDER AUTO_STOP_COMMAND_TEMPLATE = 1%nat
  /\ occurrences PLACEHOLDER LCC_TEMPLATE = 0%nat.
Proof. repeat split; vm_compute; reflexivity. Qed.

Example b64_rfc4648 :
  map (fun s => string_of_bytes (b64encode (encode_utf8 s)))
      ["f"; "fo"; "foo"; "foob"; "fooba"; "foobar"]
  = ["Zg=="; "Zm8="; "Zm9v"; "Zm9vYg=="; "Zm9vYmE="; "Zm9vYmFy"].
Proof. reflexivity. Qed.

Example utf8_two_bytes :
  map Byte.to_N (encode_utf8 (String (Ascii.ascii_of_N 233) EmptyString)) = [195%N; 169%N]
  /\ decode_utf8 (encode_utf8 (String (Ascii.ascii_of_N 233) "a"))
     = Some (String (Ascii.ascii_of_N 233) "a").
Proof. split; reflexivity. Qed.

Example create_run :
  calls (lambda_handler Fake.sagemaker 3 Fake.create_event Fake.fresh).1.2
  = [Client.CreateStudioLifecycleConfig "myconfig" (config_content 30) "CodeEditor";
     Client.UpdateDomain "d-1" "ENABLED";
     Client.DescribeDomain "d-1"; Client.DescribeDomain "d-1"; Client.DescribeDomain "d-1"]
  /\ sends (lambda_handler Fake.sagemaker 3 Fake.create_event Fake.fresh).1.2
     = [success_notification [("Arn", Fake.arn_of "myconfig")] "d-1_30"].
Proof. split; reflexivity. Qed.

Example unknown_request_type_run :
  lambda_handler Fake.sagemaker 3
    {| RequestType := "Read"; ResourceProperties := Fake.props; PhysicalResourceId := None |}
    Fake.fresh
  = (Fake.fresh, [], Returns tt).
Proof. reflexivity. Qed.

(** ** Strings *)

Section StringFacts.

Lemma append_cons (c : ascii) (a b : string) : String c a +:+ b = String c (a +:+ b).
Proof. reflexivity. Qed.

Lemma append_nil_l (a : string) : EmptyString +:+ a = a.
Proof. reflexivity. Qed.

Lemma append_inj_l (p a b : string) : p +:+ a = p +:+ b -> a = b.
Proof. apply (inj (String.append p)). Qed.

Lemma is_prefix_app (p s : string) : is_prefix p (p +:+ s) = true.
Proof.
  induction p as [|c p IH]; [done|].
  rewrite append_cons. simpl. by rewrite Ascii.eqb_refl.
Qed.

Lemma occurrences_app_ge (p x s : string) :
  (occurrences p s <= occurrences p (x +:+ s))%nat.
Proof.
  induction x as [|c x IH]; [done|].
  rewrite append_cons. cbn [occurrences]. lia.
Qed.

Variables (c0 : ascii) (old' new : string).
Let old : string := String c0 old'.

Lemma occurrences_here (x s : string) :
  (1 <= occurrences old (x +:+ old +:+ s))%nat.
Proof.
  etrans; [|apply occurrences_app_ge].
  assert (is_prefix old (old +:+ s) = true) as H by apply is_prefix_app.
  unfold old in *. rewrite append_cons in *. cbn [occurrences]. rewrite H. lia.
Qed.

Lemma replace_from_skip (x s : string) :
  replace_from old new (String.length x) (x +:+ s) = replace_from old new 0 s.
Proof.
  induction x as [|c x IH]; [done|].
  rewrite append_cons. exact IH.
Qed.

Lemma replace_from_absent (s : string) :
  occurrences old s = 0%nat -> replace_from old new 0 s = s.
Proof.
  induction s as [|c s IH]; [done|].
  cbn [occurrences replace_from].
  destruct (is_prefix old (String c s)); [lia|].
  intros H. by rewrite IH by lia.
Qed.

(** A string that holds [old] once: the replacement puts [new] in its place
    and leaves the rest as it is. *)
Lemma replace_once (pre post : string) :
  occurrences old (pre +:+ old +:+ post) = 1%nat ->
  replace (pre +:+ old +:+ post) old new = pre +:+ new +:+ post.
Proof.
  unfold replace. induction pre as [|c pre IH].
  - rewrite !append_nil_l.
    assert (is_prefix old (old +:+ post) = true) as Hp by apply is_prefix_app.
    pose proof (occurrences_app_ge old old' post) as Hge.
    pose proof (replace_from_skip old' post) as Hskip.
    pose proof (replace_from_absent post) as Habs.
    unfold old in *. rewrite append_cons in *.
    cbn [occurrences replace_from]. rewrite Hp. intros H.
    rewrite Hskip, Habs; [done | lia].
  - rewrite !append_cons. cbn [occurrences replace_from]. intros H.
    pose proof (occurrences_here pre post) as Hge.
    destruct (is_prefix old (String c (pre +:+ old +:+ post))); [lia|].
    by rewrite IH by lia.
Qed.

End StringFacts.

Lemma str_inj (m n : Z) : str m = str n -> m = n.
Proof. unfold str. apply (inj pretty). Qed.

Lemma auto_stop_split :
  AUTO_STOP_COMMAND_TEMPLATE = auto_stop_parts.1 +:+ PLACEHOLDER +:+ auto_stop_parts.2.
Proof. vm_compute. reflexivity. Qed.

(** ** The content of the configuration *)

(** C5.  With no idle time the script is the base template and nothing else;
    with [N > 0] minutes it is the base template, a line feed, and the
    auto-stop template with its placeholder, which occurs once, replaced by
    the decimal digits of [60 * N]. *)
Theorem lcc_spec (N : Z) :
  lcc 0 = LCC_TEMPLATE
  /\ (0 < N ->
      lcc N = LCC_TEMPLATE +:+ nl +:+ auto_stop_parts.1 +:+ str (60 * N) +:+ auto_stop_parts.2)
  /\ AUTO_STOP_COMMAND_TEMPLATE = auto_stop_parts.1 +:+ PLACEHOLDER +:+ auto_stop_parts.2
  /\ occurrences PLACEHOLDER auto_stop_parts.1 = 0%nat
  /\ occurrences PLACEHOLDER auto_stop_parts.2 = 0%nat.
Proof.
  split; [reflexivity|]. split; [|split; [exact auto_stop_split | split; vm_compute; reflexivity]].
  intros HN. unfold lcc. destruct (Z.ltb_spec 0 N) as [_|]; [|lia].
  rewrite auto_stop_split.
  change PLACEHOLDER with (String "_" "_AUTO_STOP_IDLE_TIME__").
  rewrite replace_once; [reflexivity | vm_compute; reflexivity].
Qed.

Lemma lcc_spec_witness :
  0 < 30
  /\ lcc 30 = LCC_TEMPLATE +:+ nl +:+ auto_stop_parts.1 +:+ str (60 * 30) +:+ auto_stop_parts.2.
Proof. split; [lia | apply (proj1 (proj2 (lcc_spec 30))); lia]. Defined.

(** ** Base64 text *)

Lemma ascii_of_byte_N (b : Byte.byte) : Ascii.ascii_of_N (Byte.to_N b) = Ascii.ascii_of_byte b.
Proof. by destruct b. Qed.

Lemma decode_utf8_ascii (bs : bytes) :
  Forall (fun b => (Byte.to_N b < 128)%N) bs -> decode_utf8 bs = Some (string_of_bytes bs).
Proof.
  induction 1 as [|b bs Hb _ IH]; [done|].
  cbn [decode_utf8 string_of_bytes].
  destruct (N.ltb_spec (Byte.to_N b) 128) as [_|]; [|lia].
  by rewrite IH, ascii_of_byte_N.
Qed.

Lemma b64_digit_ascii (i : N) : (Byte.to_N (b64_digit i) < 128)%N.
Proof.
  unfold b64_digit. generalize (N.to_nat i) as n. intros n.
  do 64 (destruct n as [|n]; [vm_compute; reflexivity|]).
  vm_compute. reflexivity.
Qed.

Lemma b64encode_ascii (bs : bytes) : Forall (fun b => (Byte.to_N b < 128)%N) (b64encode bs).
Proof.
  cut (Forall (fun b => (Byte.to_N b < 128)%N) (b64encode bs)
       /\ (forall a, Forall (fun b => (Byte.to_N b < 128)%N) (b64encode (a :: bs)))
       /\ (forall a a', Forall (fun b => (Byte.to_N b < 128)%N) (b64encode (a :: a' :: bs)))).
  { by intros [? _]. }
  assert ((Byte.to_N b64_pad < 128)%N) as Hpad by (vm_compute; reflexivity).
  induction bs as [|c bs (IH0 & IH1 & IH2)].
  - repeat split; intros; cbn [b64encode]; repeat constructor;
      auto using b64_digit_ascii.
  - split; [apply IH1|]. split; [intros; apply IH2|].
    intros a a'. cbn [b64encode]. repeat (constructor; [apply b64_digit_ascii|]). exact IH0.
Qed.

Lemma decode_b64encode (bs : bytes) :
  decode_utf8 (b64encode bs) = Some (string_of_bytes (b64encode bs)).
Proof. apply decode_utf8_ascii, b64encode_ascii. Qed.

Lemma lcc_head (idle_mins : Z) : exists rest, lcc idle_mins = String "#" (String "!" (String "/" rest)).
Proof.
  assert (exists t, LCC_TEMPLATE = String "#" (String "!" (String "/" t))) as [t Ht]
    by (eexists; vm_compute; reflexivity).
  unfold lcc. destruct (0 <? idle_mins); rewrite Ht; rewrite ?append_cons; eauto.
Qed.

(** The content is not the script: the script starts with [#], its base64
    text with [I]. *)
Lemma config_content_not_script (idle_mins : Z) : config_content idle_mins <> lcc idle_mins.
Proof.
  unfold config_content. destruct (lcc_head idle_mins) as [rest ->].
  cbn [encode_utf8]. change (encode_char "#") with [Byte.x23].
  change (encode_char "!") with [Byte.x21]. change (encode_char "/") with [Byte.x2f].
  cbn [app b64encode string_of_bytes]. intros [= H _].
Qed.

(** ** The polling loop *)

Lemma polling_not_terminal (s : string) :
  polling_status s -> s <> "InService" /\ ~ failure_status s.
Proof.
  unfold polling_status, failure_status. rewrite !elem_of_cons, !elem_of_nil.
  intros [->|[->|[->|[]]]]; split; try done; intros [?|[?|[?|[]]]]; done.
Qed.

Lemma failure_not_in_service (s : string) : failure_status s -> s <> "InService".
Proof.
  unfold failure_status. rewrite !elem_of_cons, !elem_of_nil.
  by intros [->|[->|[->|[]]]].
Qed.

Section HandlerFacts.

Context {W : Type} (sagemaker : Client.t W).

Lemma update_domain_loop_step (fuel : nat) (d : string) (w : W) :
  update_domain_loop sagemaker (S fuel) d w =
  match Client.describe_domain sagemaker d w with
  | (w1, Ok res) =>
      if decide (Client.Status res = "InService")
      then (w1, [Call (Client.DescribeDomain d)], Returns res)
      else if decide (Client.Status res ∈ ["Failed"; "Update_Failed"; "Delete_Failed"])
      then (w1, [Call (Client.DescribeDomain d)],
            Raises (RuntimeError ("Space is in '" +:+ Client.Status res +:+ "' state.")))
      else let '(w2, t, r) := update_domain_loop sagemaker fuel d w1 in
           (w2, Call (Client.DescribeDomain d) :: Sleep 10 :: t, r)
  | (w1, Err e) => (w1, [Call (Client.DescribeDomain d)], Raises e)
  end.
Proof.
  cbn [update_domain_loop]. unfold bind, invoke, ret, raise, perform.
  destruct (Client.describe_domain sagemaker d w) as [w1 [res|e]]; [|done].
  repeat case_decide; try done.
  by destruct (update_domain_loop sagemaker fuel d w1) as [[w2 t] r].
Qed.

(** The loop describes the domain and sleeps, and does nothing else. *)
Lemma update_domain_loop_trace (fuel : nat) (d : string) (w w' : W) (t : trace)
    (r : outcome Client.domain) :
  update_domain_loop sagemaker fuel d w = (w', t, r) ->
  Forall (fun e => e = Call (Client.DescribeDomain d) \/ e = Sleep 10) t.
Proof.
  revert w w' t r. induction fuel as [|fuel IH]; intros w w' t r.
  - intros [= <- <- <-]. constructor.
  - rewrite update_domain_loop_step.
    destruct (Client.describe_domain sagemaker d w) as [w1 [res|e]].
    + repeat case_decide.
      * intros [= <- <- <-]. repeat constructor.
      * intros [= <- <- <-]. repeat constructor.
      * destruct (update_domain_loop sagemaker fuel d w1) as [[w2 t2] r2] eqn:E.
        intros [= <- <- <-]. repeat (constructor; [auto|]). eauto.
    + intros [= <- <- <-]. repeat constructor.
Qed.

(** When the loop returns, the domain it returns is in service, and it is the
    answer of the describe call that ends the trace. *)
Lemma update_domain_loop_returns (fuel : nat) (d : string) (w w' : W) (t : trace)
    (res : Client.domain) :
  update_domain_loop sagemaker fuel d w = (w', t, Returns res) ->
  Client.Status res = "InService"
  /\ exists w0 t0, Client.describe_domain sagemaker d w0 = (w', Ok res)
                   /\ t = t0 ++ [Call (Client.DescribeDomain d)].
Proof.
  revert w w' t. induction fuel as [|fuel IH]; intros w w' t; [done|].
  rewrite update_domain_loop_step.
  destruct (Client.describe_domain sagemaker d w) as [w1 [res1|e]] eqn:D; [|done].
  repeat case_decide; try done.
  - intros [= <- <- <-]. split; [done|]. by exists w, [].
  - destruct (update_domain_loop sagemaker fuel d w1) as [[w2 t2] r2] eqn:E.
    intros [= <- <- ->]. destruct (IH _ _ _ E) as (? & w0 & t0 & ? & ->).
    split; [done|]. by exists w0, (Call (Client.DescribeDomain d) :: Sleep 10 :: t0).
Qed.

(** While the domain answers with polling statuses the loop describes it and
    sleeps ten seconds, once per answer. *)
Lemma update_domain_loop_polls (d : string) (w w1 : W) (rs : list Client.domain) (fuel : nat) :
  describes sagemaker d w rs w1 ->
  Forall (fun r => polling_status (Client.Status r)) rs ->
  update_domain_loop sagemaker (length rs + fuel) d w =
  let '(w2, t, r) := update_domain_loop sagemaker fuel d w1 in
  (w2, polls d (length rs) ++ t, r).
Proof.
  induction 1 as [w|w w0 r rs w1 D _ IH]; intros Hrs.
  - cbn [length Nat.add polls replicate concat app].
    by destruct (update_domain_loop sagemaker fuel d w) as [[w2 t] r].
  - apply Forall_cons in Hrs as [[? ?]%polling_not_terminal Hrs].
    cbn [length Nat.add]. rewrite update_domain_loop_step, D.
    repeat case_decide; try done.
    rewrite IH by done.
    by destruct (update_domain_loop sagemaker fuel d w1) as [[w2 t] r'].
Qed.


(** ** [update_domain] *)

Lemma update_domain_run (fuel : nat) (d : string) (w : W) :
  update_domain sagemaker fuel d w =
  match Client.update_domain sagemaker d "ENABLED" w with
  | (w0, Ok _) =>
      let '(w1, t, r) := update_domain_loop sagemaker fuel d w0 in
      (w1, Call (Client.UpdateDomain d "ENABLED") :: t, r)
  | (w0, Err e) => (w0, [Call (Client.UpdateDomain d "ENABLED")], Raises e)
  end.
Proof.
  unfold update_domain, bind, invoke.
  destruct (Client.update_domain sagemaker d "ENABLED" w) as [w0 [[]|e]]; [|done].
  by destruct (update_domain_loop sagemaker fuel d w0) as [[w1 t] r].
Qed.

(** [update_domain] sends no notification and deletes nothing: its effects are
    the update call, describe calls and sleeps. *)
Lemma update_domain_trace (fuel : nat) (d : string) (w w' : W) (t : trace)
    (r : outcome Client.domain) :
  update_domain sagemaker fuel d w = (w', t, r) ->
  Forall (fun e => e = Call (Client.UpdateDomain d "ENABLED")
                   \/ e = Call (Client.DescribeDomain d) \/ e = Sleep 10) t.
Proof.
  rewrite update_domain_run.
  destruct (Client.update_domain sagemaker d "ENABLED" w) as [w0 [[]|e]].
  - destruct (update_domain_loop sagemaker fuel d w0) as [[w1 t1] r1] eqn:E.
    intros [= <- <- <-]. constructor; [auto|].
    eapply Forall_impl; [by eapply update_domain_loop_trace|].
    intros e [->| ->]; auto.
  - intros [= <- <- <-]. repeat constructor.
Qed.

Lemma update_domain_sends (fuel : nat) (d : string) (w w' : W) (t : trace)
    (r : outcome Client.domain) :
  update_domain sagemaker fuel d w = (w', t, r) ->
  sends t = [] /\ Forall (fun e => is_delete e = false) t.
Proof.
  intros H%update_domain_trace. induction H as [|e t He _ [IH1 IH2]]; [done|].
  split.
  - unfold sends in *. cbn [omap list_omap]. by destruct He as [->|[->| ->]].
  - constructor; [|done]. by destruct He as [->|[->| ->]].
Qed.

(** ** The three branches of the handler *)

Lemma create_lifecycle_config_run (name : string) (idle_mins : Z) (w : W) :
  create_lifecycle_config sagemaker name idle_mins w =
  invoke (Client.CreateStudioLifecycleConfig name (config_content idle_mins) APP_TYPE)
         (Client.create_studio_lifecycle_config sagemaker name (config_content idle_mins)
            APP_TYPE) w.
Proof. unfold create_lifecycle_config. by rewrite decode_b64encode. Qed.

Lemma lambda_handler_create (fuel : nat) (ev : event) (w : W) :
  RequestType ev = "Create" ->
  lambda_handler sagemaker fuel ev w =
  let name := lifecycle_config_name ev in
  let content := config_content (AutoStopIdleTimeInMinutes (ResourceProperties ev)) in
  let create := Call (Client.CreateStudioLifecycleConfig name content APP_TYPE) in
  match Client.create_studio_lifecycle_config sagemaker name content APP_TYPE w with
  | (w1, Err e) => (w1, [create; Send (failure_notification ev e)], Returns tt)
  | (w1, Ok res) =>
      match update_domain sagemaker fuel (DomainId (ResourceProperties ev)) w1 with
      | (w2, t, Returns _) =>
          (w2, create :: t ++ [Send (success_notification
                                       [("Arn", Client.StudioLifecycleConfigArn res)]
                                       (physical_resource_id ev))], Returns tt)
      | (w2, t, Raises e) => (w2, create :: t ++ [Send (failure_notification ev e)], Returns tt)
      | (w2, t, OutOfFuel) => (w2, create :: t, OutOfFuel)
      end
  end.
Proof.
  intros H. unfold lambda_handler, try_except, try_body. rewrite H.
  case_decide; [|done]. unfold bind at 1. rewrite create_lifecycle_config_run.
  unfold invoke at 1.
  destruct (Client.create_studio_lifecycle_config sagemaker _ _ _ w) as [w1 [res|e]]; [|done].
  unfold bind.
  by destruct (update_domain sagemaker fuel _ w1) as [[w2 t] [dom|e|]].
Qed.

Lemma lambda_handler_update (fuel : nat) (ev : event) (w : W) :
  RequestType ev = "Update" ->
  lambda_handler sagemaker fuel ev w =
  let name := lifecycle_config_name ev in
  match PhysicalResourceId ev with
  | None => (w, [Send (failure_notification ev (KeyError "PhysicalResourceId"))], Returns tt)
  | Some prior =>
      if decide (physical_resource_id ev <> prior)
      then (w, [Send (failure_notification ev (ValueError UNSUPPORTED_UPDATE))], Returns tt)
      else
        match Client.describe_studio_lifecycle_config sagemaker name w with
        | (w1, Ok res) =>
            (w1, [Call (Client.DescribeStudioLifecycleConfig name);
                  Send (success_notification [("Arn", Client.StudioLifecycleConfigArn res)]
                                             (physical_resource_id ev))], Returns tt)
        | (w1, Err e) =>
            (w1, [Call (Client.DescribeStudioLifecycleConfig name);
                  Send (failure_notification ev e)], Returns tt)
        end
  end.
Proof.
  intros H. unfold lambda_handler, try_except, try_body. rewrite H.
  do 2 (case_decide; try done). unfold bind, invoke.
  destruct (PhysicalResourceId ev) as [prior|]; [|done]. cbn.
  case_decide; [done|]. cbn.
  by destruct (Client.describe_studio_lifecycle_config sagemaker _ w) as [w1 [res|e]].
Qed.

Lemma lambda_handler_delete (fuel : nat) (ev : event) (w : W) :
  RequestType ev = "Delete" ->
  lambda_handler sagemaker fuel ev w =
  let name := lifecycle_config_name ev in
  let listing := Call (Client.ListStudioLifecycleConfigs APP_TYPE) in
  let success := Send (success_notification [] (physical_resource_id ev)) in
  match Client.list_studio_lifecycle_configs sagemaker APP_TYPE w with
  | (w1, Err e) => (w1, [listing; Send (failure_notification ev e)], Returns tt)
  | (w1, Ok lcs) =>
      if decide (name ∈ map Client.StudioLifecycleConfigName lcs)
      then
        match Client.delete_studio_lifecycle_config sagemaker name w1 with
        | (w2, Ok _) | (w2, Err (ResourceNotFound _)) =>
            (w2, [listing; Call (Client.DeleteStudioLifecycleConfig name); success], Returns tt)
        | (w2, Err e) =>
            (w2, [listing; Call (Client.DeleteStudioLifecycleConfig name);
                  Send (failure_notification ev e)], Returns tt)
        end
      else (w1, [listing; success], Returns tt)
  end.
Proof.
  intros H. unfold lambda_handler, try_except, try_body. rewrite H.
  do 3 (case_decide; try done). unfold bind at 1, invoke at 1.
  destruct (Client.list_studio_lifecycle_configs sagemaker APP_TYPE w) as [w1 [lcs|e]]; [|done].
  unfold bind. case_decide; [|done].
  unfold delete_lifecycle_config, try_except, invoke.
  by destruct (Client.delete_studio_lifecycle_config sagemaker _ w1) as [w2 [[]|[]]].
Qed.

(** A request type that is none of the three: no branch is taken. *)
Lemma lambda_handler_other (fuel : nat) (ev : event) (w : W) :
  RequestType ev ∉ ["Create"; "Update"; "Delete"] ->
  lambda_handler sagemaker fuel ev w = (w, [], Returns tt).
Proof.
  intros H. unfold lambda_handler, try_except, try_body.
  repeat case_decide; try done; exfalso; apply H; set_solver.
Qed.

End HandlerFacts.

(** ** The physical resource id *)

(** C1.  The physical resource id is the domain id, an underscore and the
    decimal digits of the idle minutes.  When a Create goes through (the
    configuration is created, the domain update returns), the one notification
    of the run is a success that carries the ARN and this id.  Between two
    events of one domain the id differs exactly when the idle minutes
    differ. *)
Theorem physical_resource_id_spec {W : Type} (sagemaker : Client.t W) (ev ev' : event)
    (fuel : nat) (w w1 w2 : W) (res : Client.lifecycle_config) (t : trace)
    (dom : Client.domain) :
  let domain_id := DomainId (ResourceProperties ev) in
  let idle_mins := AutoStopIdleTimeInMinutes (ResourceProperties ev) in
  physical_resource_id ev = domain_id +:+ "_" +:+ str idle_mins
  /\ (RequestType ev = "Create" ->
      Client.create_studio_lifecycle_config sagemaker (lifecycle_config_name ev)
        (config_content idle_mins) APP_TYPE w = (w1, Ok res) ->
      update_domain sagemaker fuel domain_id w1 = (w2, t, Returns dom) ->
      exists t0,
        lambda_handler sagemaker fuel ev w =
          (w2, t0 ++ [Send {| responseStatus := SUCCESS;
                              responseData := [("Arn", Client.StudioLifecycleConfigArn res)];
                              physicalResourceId := Some (domain_id +:+ "_" +:+ str idle_mins);
                              reason := None |}], Returns tt)
        /\ sends t0 = [])
  /\ (DomainId (ResourceProperties ev') = domain_id ->
      (physical_resource_id ev' <> physical_resource_id ev
       <-> AutoStopIdleTimeInMinutes (ResourceProperties ev') <> idle_mins)).
Proof.
  intros domain_id idle_mins. split; [done|]. split.
  - intros Hreq Hcreate Hupdate. rewrite lambda_handler_create by done.
    cbn zeta. fold idle_mins domain_id. rewrite Hcreate, Hupdate.
    eexists (_ :: t). split; [done|].
    apply update_domain_sends in Hupdate as [Hs _]. unfold sends in *. by cbn.
  - intros Hd. unfold physical_resource_id. fold domain_id idle_mins. rewrite Hd.
    split; intros H Heq; apply H.
    + by rewrite Heq.
    + by apply append_inj_l, append_inj_l, str_inj in Heq.
Qed.

Lemma physical_resource_id_spec_witness :
  exists t0,
    lambda_handler Fake.sagemaker 3 Fake.create_event Fake.fresh =
      (Fake.provisioned,
       t0 ++ [Send {| responseStatus := SUCCESS;
                      responseData := [("Arn", Fake.arn_of "myconfig")];
                      physicalResourceId := Some "d-1_30";
                      reason := None |}], Returns tt)
    /\ sends t0 = [].
Proof.
  refine (proj1 (proj2 (physical_resource_id_spec Fake.sagemaker Fake.create_event
                          Fake.create_event 3 Fake.fresh
                          {| Fake.configs := [Fake.config]; Fake.script := ["Updating"; "Pending"];
                             Fake.steady := "InService" |}
                          Fake.provisioned Fake.config
                          (Call (Client.UpdateDomain "d-1" "ENABLED")
                           :: polls "d-1" 2 ++ [Call (Client.DescribeDomain "d-1")])
                          (Fake.domain_in "InService"))) _ _ _);
    reflexivity.
Defined.

(** ** Update *)

(** C2.  An Update whose derived id is not the prior id of the event fails:
    the handler sends one notification, a failure whose reason is the
    unsupported-update message, and calls the control plane not at all, so no
    create, update or delete comes before it. *)
Theorem update_changed_id_fails {W : Type} (sagemaker : Client.t W) (fuel : nat)
    (ev : event) (w : W) (prior : string) :
  RequestType ev = "Update" ->
  PhysicalResourceId ev = Some prior ->
  physical_resource_id ev <> prior ->
  lambda_handler sagemaker fuel ev w =
    (w, [Send {| responseStatus := FAILED;
                 responseData := [("Error", UNSUPPORTED_UPDATE)];
                 physicalResourceId := Some prior;
                 reason := Some UNSUPPORTED_UPDATE |}], Returns tt)
  /\ calls (lambda_handler sagemaker fuel ev w).1.2 = [].
Proof.
  intros Hreq Hprior Hne. rewrite lambda_handler_update by done. cbn zeta.
  rewrite Hprior. case_decide; [|done].
  unfold failure_notification. rewrite Hprior. done.
Qed.

Lemma update_changed_id_fails_witness :
  lambda_handler Fake.sagemaker 0 (Fake.update_event (Some "d-1_45")) Fake.provisioned =
    (Fake.provisioned,
     [Send {| responseStatus := FAILED;
              responseData := [("Error", UNSUPPORTED_UPDATE)];
              physicalResourceId := Some "d-1_45";
              reason := Some UNSUPPORTED_UPDATE |}], Returns tt)
  /\ calls (lambda_handler Fake.sagemaker 0 (Fake.update_event (Some "d-1_45"))
              Fake.provisioned).1.2 = [].
Proof.
  apply (update_changed_id_fails Fake.sagemaker 0 (Fake.update_event (Some "d-1_45"))
           Fake.provisioned "d-1_45"); [reflexivity | reflexivity | vm_compute; discriminate].
Defined.

(** C7.  An Update whose derived id is the prior id calls the control plane
    once, to describe the configuration, whatever the answer; when the
    control plane answers, the handler reports success with the ARN of the
    described configuration and the same physical id. *)
Theorem update_same_id_describes {W : Type} (sagemaker : Client.t W) (fuel : nat)
    (ev : event) (w : W) :
  RequestType ev = "Update" ->
  PhysicalResourceId ev = Some (physical_resource_id ev) ->
  let name := lifecycle_config_name ev in
  calls (lambda_handler sagemaker fuel ev w).1.2 = [Client.DescribeStudioLifecycleConfig name]
  /\ Client.mutates (Client.DescribeStudioLifecycleConfig name) = false
  /\ forall w1 res,
      Client.describe_studio_lifecycle_config sagemaker name w = (w1, Ok res) ->
      lambda_handler sagemaker fuel ev w =
        (w1, [Call (Client.DescribeStudioLifecycleConfig name);
              Send {| responseStatus := SUCCESS;
                      responseData := [("Arn", Client.StudioLifecycleConfigArn res)];
                      physicalResourceId := PhysicalResourceId ev;
                      reason := None |}], Returns tt).
Proof.
  intros Hreq Hprior name. rewrite lambda_handler_update by done. cbn zeta.
  rewrite Hprior. case_decide; [done|]. fold name. repeat split.
  - by destruct (Client.describe_studio_lifecycle_config sagemaker name w) as [w1 [res|e]].
  - by intros w1 res ->.
Qed.

Lemma update_same_id_describes_witness :
  calls (lambda_handler Fake.sagemaker 0 (Fake.update_event (Some "d-1_30"))
           Fake.provisioned).1.2
  = [Client.DescribeStudioLifecycleConfig "myconfig"]
  /\ lambda_handler Fake.sagemaker 0 (Fake.update_event (Some "d-1_30")) Fake.provisioned =
       (Fake.provisioned,
        [Call (Client.DescribeStudioLifecycleConfig "myconfig");
         Send {| responseStatus := SUCCESS;
                 responseData := [("Arn", Fake.arn_of "myconfig")];
                 physicalResourceId := Some "d-1_30";
                 reason := None |}], Returns tt).
Proof.
  pose proof (update_same_id_describes Fake.sagemaker 0 (Fake.update_event (Some "d-1_30"))
                Fake.provisioned eq_refl eq_refl) as (H1 & _ & H2).
  split; [exact H1 | exact (H2 Fake.provisioned Fake.config eq_refl)].
Defined.

(** ** Delete *)

(** C3.  A Delete lists the configurations of the app type.  When the
    lower-cased name is not in the listing the handler deletes nothing and
    reports success with no data and the derived id.  When it is, the handler
    deletes the configuration (a [ResourceNotFound] from the delete call is
    tolerated) and reports the same success.  So a Delete that finds the
    configuration, followed by a Delete that no longer finds it, reports
    success twice. *)
Theorem delete_is_idempotent {W : Type} (sagemaker : Client.t W) (fuel : nat)
    (ev : event) (w w1 : W) (lcs : list Client.lifecycle_config) :
  RequestType ev = "Delete" ->
  Client.list_studio_lifecycle_configs sagemaker APP_TYPE w = (w1, Ok lcs) ->
  let name := lifecycle_config_name ev in
  let listing := Call (Client.ListStudioLifecycleConfigs "CodeEditor") in
  let removal := Call (Client.DeleteStudioLifecycleConfig name) in
  let success := Send {| responseStatus := SUCCESS; responseData := [];
                         physicalResourceId := Some (physical_resource_id ev);
                         reason := None |} in
  (name ∉ map Client.StudioLifecycleConfigName lcs ->
   lambda_handler sagemaker fuel ev w = (w1, [listing; success], Returns tt))
  /\ (name ∈ map Client.StudioLifecycleConfigName lcs ->
      forall w2 r,
        Client.delete_studio_lifecycle_config sagemaker name w1 = (w2, r) ->
        r = Ok tt \/ (exists msg, r = Err (ResourceNotFound msg)) ->
        lambda_handler sagemaker fuel ev w = (w2, [listing; removal; success], Returns tt))
  /\ (name ∈ map Client.StudioLifecycleConfigName lcs ->
      forall w2 w3 lcs',
        Client.delete_studio_lifecycle_config sagemaker name w1 = (w2, Ok tt) ->
        Client.list_studio_lifecycle_configs sagemaker APP_TYPE w2 = (w3, Ok lcs') ->
        name ∉ map Client.StudioLifecycleConfigName lcs' ->
        (lambda_handler sagemaker fuel ev ;; lambda_handler sagemaker fuel ev) w =
          (w3, [listing; removal; success; listing; success], Returns tt)).
Proof.
  intros Hreq Hlist name listing removal success.
  assert (forall v v1 l, Client.list_studio_lifecycle_configs sagemaker APP_TYPE v = (v1, Ok l) ->
            name ∉ map Client.StudioLifecycleConfigName l ->
            lambda_handler sagemaker fuel ev v = (v1, [listing; success], Returns tt)) as Habsent.
  { intros v v1 l Hl Hn. rewrite lambda_handler_delete by done. cbn zeta. rewrite Hl.
    fold name. by case_decide. }
  assert (name ∈ map Client.StudioLifecycleConfigName lcs ->
          forall w2 r,
            Client.delete_studio_lifecycle_config sagemaker name w1 = (w2, r) ->
            r = Ok tt \/ (exists msg, r = Err (ResourceNotFound msg)) ->
            lambda_handler sagemaker fuel ev w = (w2, [listing; removal; success], Returns tt))
    as Hpresent.
  { intros Hin w2 r Hdel Hr. rewrite lambda_handler_delete by done. cbn zeta. rewrite Hlist.
    fold name. case_decide; [|done]. rewrite Hdel. by destruct Hr as [->|[msg ->]]. }
  split; [by apply Habsent|]. split; [exact Hpresent|].
  intros Hin w2 w3 lcs' Hdel Hlist' Hn. unfold bind.
  rewrite (Hpresent Hin w2 (Ok tt)) by auto. by rewrite (Habsent w2 w3 lcs').
Qed.

Lemma delete_is_idempotent_witness :
  (lambda_handler Fake.sagemaker 0 Fake.delete_event ;;
   lambda_handler Fake.sagemaker 0 Fake.delete_event) Fake.provisioned =
    ({| Fake.configs := []; Fake.script := []; Fake.steady := "InService" |},
     [Call (Client.ListStudioLifecycleConfigs "CodeEditor");
      Call (Client.DeleteStudioLifecycleConfig "myconfig");
      Send {| responseStatus := SUCCESS; responseData := [];
              physicalResourceId := Some "d-1_30"; reason := None |};
      Call (Client.ListStudioLifecycleConfigs "CodeEditor");
      Send {| responseStatus := SUCCESS; responseData := [];
              physicalResourceId := Some "d-1_30"; reason := None |}], Returns tt).
Proof.
  pose proof (delete_is_idempotent Fake.sagemaker 0 Fake.delete_event Fake.provisioned
                Fake.provisioned [Fake.config] eq_refl eq_refl) as (_ & _ & H).
  apply (H ltac:(vm_compute; apply list_elem_of_here)
           {| Fake.configs := []; Fake.script := []; Fake.steady := "InService" |}
           {| Fake.configs := []; Fake.script := []; Fake.steady := "InService" |} []);
    [reflexivity | reflexivity |].
  vm_compute. apply not_elem_of_nil.
Defined.

(** ** The domain-update waiter *)

(** C4.  [update_domain] returns only a domain that is [InService], the answer
    of its last describe call.  After the update call, for every sequence of
    answers in the statuses [Pending], [Updating] and [Deleting], it describes
    the domain and sleeps ten seconds once per answer; on the next answer it
    returns it when the status is [InService], raises an error that carries
    the status when that is [Failed], [Update_Failed] or [Delete_Failed], and
    sleeps and goes on describing when it is a polling status again. *)
Theorem update_domain_waits {W : Type} (sagemaker : Client.t W) (d : string) :
  (forall fuel w w' t res,
      update_domain sagemaker fuel d w = (w', t, Returns res) ->
      Client.Status res = "InService"
      /\ exists w0 t0, Client.describe_domain sagemaker d w0 = (w', Ok res)
                       /\ t = t0 ++ [Call (Client.DescribeDomain d)])
  /\ (forall fuel w w0 w1 w2 rs res,
         Client.update_domain sagemaker d "ENABLED" w = (w0, Ok tt) ->
         describes sagemaker d w0 rs w1 ->
         Forall (fun r => polling_status (Client.Status r)) rs ->
         Client.describe_domain sagemaker d w1 = (w2, Ok res) ->
         let seen := Call (Client.UpdateDomain d "ENABLED")
                     :: polls d (length rs) ++ [Call (Client.DescribeDomain d)] in
         (Client.Status res = "InService" ->
          update_domain sagemaker (length rs + S fuel) d w = (w2, seen, Returns res))
         /\ (failure_status (Client.Status res) ->
             update_domain sagemaker (length rs + S fuel) d w =
               (w2, seen,
                Raises (RuntimeError ("Space is in '" +:+ Client.Status res +:+ "' state."))))
         /\ (polling_status (Client.Status res) ->
             update_domain sagemaker (length rs + S fuel) d w =
               let '(w3, t, r) := update_domain_loop sagemaker fuel d w2 in
               (w3, seen ++ Sleep 10 :: t, r))).
Proof.
  split.
  - intros fuel w w' t res. rewrite update_domain_run.
    destruct (Client.update_domain sagemaker d "ENABLED" w) as [w0 [[]|e]]; [|done].
    destruct (update_domain_loop sagemaker fuel d w0) as [[w1 t1] r1] eqn:E.
    intros [= <- <- ->]. apply update_domain_loop_returns in E as (? & v & t0 & ? & ->).
    split; [done|]. by exists v, (Call (Client.UpdateDomain d "ENABLED") :: t0).
  - intros fuel w w0 w1 w2 rs res Hupd Hrs Hpoll Hlast seen.
    assert (update_domain sagemaker (length rs + S fuel) d w
            = let '(v, t, r) := update_domain_loop sagemaker (S fuel) d w1 in
              (v, Call (Client.UpdateDomain d "ENABLED") :: polls d (length rs) ++ t, r))
      as Hrun.
    { rewrite update_domain_run, Hupd.
      rewrite (update_domain_loop_polls _ _ _ _ _ _ Hrs Hpoll).
      by destruct (update_domain_loop sagemaker (S fuel) d w1) as [[v t] r]. }
    rewrite Hrun, update_domain_loop_step, Hlast. clear Hrun.
    repeat split.
    + intros ?. by case_decide.
    + intros Hf. pose proof (failure_not_in_service _ Hf). unfold failure_status in Hf.
      by repeat case_decide.
    + intros [? ?]%polling_not_terminal. unfold failure_status in *.
      repeat case_decide; try done.
      destruct (update_domain_loop sagemaker fuel d w2) as [[w3 t] r].
      unfold seen. cbn [app]. by rewrite <- !app_assoc.
Qed.

Lemma update_domain_waits_witness :
  update_domain Fake.sagemaker (2 + 1) "d-1" Fake.fresh =
    ({| Fake.configs := []; Fake.script := []; Fake.steady := "InService" |},
     [Call (Client.UpdateDomain "d-1" "ENABLED");
      Call (Client.DescribeDomain "d-1"); Sleep 10;
      Call (Client.DescribeDomain "d-1"); Sleep 10;
      Call (Client.DescribeDomain "d-1")],
     Returns (Fake.domain_in "InService"))
  /\ update_domain Fake.sagemaker (1 + 1) "d-1" Fake.failing =
       ({| Fake.configs := []; Fake.script := []; Fake.steady := "Update_Failed" |},
        [Call (Client.UpdateDomain "d-1" "ENABLED");
         Call (Client.DescribeDomain "d-1"); Sleep 10;
         Call (Client.DescribeDomain "d-1")],
        Raises (RuntimeError "Space is in 'Update_Failed' state.")).
Proof.
  split.
  - refine (proj1 (proj2 (update_domain_waits Fake.sagemaker "d-1") 0%nat Fake.fresh Fake.fresh
                     {| Fake.configs := []; Fake.script := []; Fake.steady := "InService" |}
                     {| Fake.configs := []; Fake.script := []; Fake.steady := "InService" |}
                     [Fake.domain_in "Updating"; Fake.domain_in "Pending"]
                     (Fake.domain_in "InService") eq_refl _ _ eq_refl) eq_refl).
    + eapply describes_cons; [reflexivity|]. eapply describes_cons; [reflexivity|].
      apply describes_nil.
    + repeat constructor.
  - refine (proj1 (proj2 (proj2 (update_domain_waits Fake.sagemaker "d-1") 0%nat Fake.failing
                            Fake.failing
                            {| Fake.configs := []; Fake.script := [];
                               Fake.steady := "Update_Failed" |}
                            {| Fake.configs := []; Fake.script := [];
                               Fake.steady := "Update_Failed" |}
                            [Fake.domain_in "Updating"]
                            (Fake.domain_in "Update_Failed") eq_refl _ _ eq_refl)) _).
    + eapply describes_cons; [reflexivity|]. apply describes_nil.
    + repeat constructor.
    + vm_compute. repeat constructor.
Defined.

(** ** Failures *)

(** C6.  Whatever exception the body of the [try] raises, in any branch, the
    handler catches it and sends a failure notification: the reason is
    [str(e)], the data is [{"Error": str(e)}], and the physical resource id is
    [event.get("PhysicalResourceId")], which is [None] for an event without
    one.  No exception leaves the handler. *)
Theorem exceptions_become_failures {W : Type} (sagemaker : Client.t W) (fuel : nat)
    (ev : event) (w : W) :
  (forall w1 t e,
      try_body sagemaker fuel ev w = (w1, t, Raises e) ->
      lambda_handler sagemaker fuel ev w =
        (w1, t ++ [Send {| responseStatus := FAILED;
                           responseData := [("Error", exn_str e)];
                           physicalResourceId := PhysicalResourceId ev;
                           reason := Some (exn_str e) |}], Returns tt))
  /\ (forall e, (lambda_handler sagemaker fuel ev w).2 <> Raises e).
Proof.
  unfold lambda_handler, try_except. split.
  - by intros w1 t e ->.
  - intros e. by destruct (try_body sagemaker fuel ev w) as [[w1 t] [[]|e'|]].
Qed.

Lemma exceptions_become_failures_witness :
  lambda_handler Fake.sagemaker 0 (Fake.update_event None) Fake.provisioned =
    (Fake.provisioned,
     [] ++ [Send {| responseStatus := FAILED;
                    responseData := [("Error", "'PhysicalResourceId'")];
                    physicalResourceId := None;
                    reason := Some "'PhysicalResourceId'" |}], Returns tt).
Proof.
  apply (proj1 (exceptions_become_failures Fake.sagemaker 0 (Fake.update_event None)
                  Fake.provisioned) Fake.provisioned [] (KeyError "PhysicalResourceId")).
  reflexivity.
Defined.

(** C9.  A Create whose configuration is created and whose domain update then
    raises, in the update call or while waiting, reports the failure and
    stops: nothing is called after [update_domain], and the trace holds no
    delete call, so the configuration stays. *)
Theorem create_failure_keeps_config {W : Type} (sagemaker : Client.t W) (fuel : nat)
    (ev : event) (w w1 w2 : W) (res : Client.lifecycle_config) (t : trace) (e : exn) :
  let name := lifecycle_config_name ev in
  let content := config_content (AutoStopIdleTimeInMinutes (ResourceProperties ev)) in
  RequestType ev = "Create" ->
  Client.create_studio_lifecycle_config sagemaker name content APP_TYPE w = (w1, Ok res) ->
  update_domain sagemaker fuel (DomainId (ResourceProperties ev)) w1 = (w2, t, Raises e) ->
  lambda_handler sagemaker fuel ev w =
    (w2, Call (Client.CreateStudioLifecycleConfig name content APP_TYPE)
         :: t ++ [Send (failure_notification ev e)], Returns tt)
  /\ Forall (fun x => is_delete x = false) (lambda_handler sagemaker fuel ev w).1.2.
Proof.
  intros name content Hreq Hcreate Hupdate. rewrite lambda_handler_create by done.
  cbn zeta. fold name content. rewrite Hcreate, Hupdate. split; [done|].
  apply update_domain_sends in Hupdate as [_ Hdel]. cbn [fst snd].
  constructor; [done|]. apply Forall_app. split; [done|]. by repeat constructor.
Qed.

Lemma create_failure_keeps_config_witness :
  lambda_handler Fake.sagemaker 2 Fake.create_event Fake.failing =
    ({| Fake.configs := [Fake.config]; Fake.script := []; Fake.steady := "Update_Failed" |},
     Call (Client.CreateStudioLifecycleConfig "myconfig" (config_content 30) "CodeEditor")
     :: [Call (Client.UpdateDomain "d-1" "ENABLED");
         Call (Client.DescribeDomain "d-1"); Sleep 10;
         Call (Client.DescribeDomain "d-1")]
     ++ [Send (failure_notification Fake.create_event
                 (RuntimeError "Space is in 'Update_Failed' state."))], Returns tt)
  /\ Forall (fun x => is_delete x = false)
       (lambda_handler Fake.sagemaker 2 Fake.create_event Fake.failing).1.2.
Proof.
  apply (create_failure_keeps_config Fake.sagemaker 2 Fake.create_event Fake.failing
           {| Fake.configs := [Fake.config]; Fake.script := ["Updating"];
              Fake.steady := "Update_Failed" |}
           {| Fake.configs := [Fake.config]; Fake.script := [];
              Fake.steady := "Update_Failed" |}
           Fake.config); reflexivity.
Defined.

(** ** The create call *)

Lemma calls_call (c : Client.call) (t : trace) : calls (Call c :: t) = c :: calls t.
Proof. reflexivity. Qed.

Lemma calls_snoc_send (t : trace) (n : notification) : calls (t ++ [Send n]) = calls t.
Proof. unfold calls. rewrite omap_app. apply app_nil_r. Qed.

Lemma N_of_ascii_of_byte (b : Byte.byte) : Ascii.N_of_ascii (Ascii.ascii_of_byte b) = Byte.to_N b.
Proof. by destruct b. Qed.

Lemma encode_utf8_ascii (bs : bytes) :
  Forall (fun b => (Byte.to_N b < 128)%N) bs -> encode_utf8 (string_of_bytes bs) = bs.
Proof.
  induction 1 as [|b bs Hb _ IH]; [done|].
  cbn [string_of_bytes encode_utf8]. unfold encode_char.
  rewrite N_of_ascii_of_byte, IH.
  destruct (N.ltb_spec (Byte.to_N b) 128) as [_|]; [|lia].
  unfold byte_of_N. by rewrite Byte.of_to_N.
Qed.

(** C10.  A Create calls the create operation first, with the lower-cased
    name, the app type [CodeEditor], and a content whose UTF-8 bytes are the
    base64 encoding of the UTF-8 bytes of the script; that content is not the
    script.  Every create call of the run has these arguments. *)
Theorem create_passes_base64 {W : Type} (sagemaker : Client.t W) (fuel : nat)
    (ev : event) (w : W) :
  RequestType ev = "Create" ->
  let idle_mins := AutoStopIdleTimeInMinutes (ResourceProperties ev) in
  let name := lifecycle_config_name ev in
  (exists w' t r,
      lambda_handler sagemaker fuel ev w =
        (w', Call (Client.CreateStudioLifecycleConfig name (config_content idle_mins)
                     "CodeEditor") :: t, r))
  /\ (forall n c a,
         Client.CreateStudioLifecycleConfig n c a ∈ calls (lambda_handler sagemaker fuel ev w).1.2 ->
         n = name /\ c = config_content idle_mins /\ a = "CodeEditor")
  /\ encode_utf8 (config_content idle_mins) = b64encode (encode_utf8 (lcc idle_mins))
  /\ config_content idle_mins <> lcc idle_mins.
Proof.
  intros Hreq idle_mins name.
  split; [|split; [|split; [apply encode_utf8_ascii, b64encode_ascii
                            | apply config_content_not_script]]];
    rewrite lambda_handler_create by done; cbn zeta; fold idle_mins name;
    destruct (Client.create_studio_lifecycle_config sagemaker _ _ _ w) as [w1 [res|e]].
  - destruct (update_domain sagemaker fuel _ w1) as [[w2 t] [dom|e|]]; by eexists _, _, _.
  - by eexists _, _, _.
  - assert (forall t n c a,
               Forall (fun e => e = Call (Client.UpdateDomain
                                            (DomainId (ResourceProperties ev)) "ENABLED")
                                \/ e = Call (Client.DescribeDomain
                                               (DomainId (ResourceProperties ev)))
                                \/ e = Sleep 10) t ->
               Client.CreateStudioLifecycleConfig n c a ∉ calls t) as Hno.
    { intros t n c a Ht. induction Ht as [|x t Hx _ IH]; [apply not_elem_of_nil|].
      unfold calls in *.
      destruct Hx as [->|[->| ->]]; cbn [omap list_omap]; rewrite ?not_elem_of_cons; auto. }
    intros n c a.
    destruct (update_domain sagemaker fuel _ w1) as [[w2 t] r] eqn:E.
    pose proof (Hno _ n c a (update_domain_trace _ _ _ _ _ _ _ E)) as Hn.
    destruct r as [dom|e|]; cbn [fst snd];
      rewrite calls_call, ?calls_snoc_send, elem_of_cons; intros [[= -> -> ->]|?]; done.
  - intros n c a. cbn. rewrite elem_of_cons, elem_of_nil. by intros [[= -> -> ->]|[]].
Qed.

Lemma create_passes_base64_witness :
  exists w' t r,
    lambda_handler Fake.sagemaker 3 Fake.create_event Fake.fresh =
      (w', Call (Client.CreateStudioLifecycleConfig "myconfig" (config_content 30) "CodeEditor")
           :: t, r).
Proof.
  exact (proj1 (create_passes_base64 Fake.sagemaker 3 Fake.create_event Fake.fresh eq_refl)).
Defined.

(** ** One notification per event *)

Lemma sends_call (c : Client.call) (t : trace) : sends (Call c :: t) = sends t.
Proof. reflexivity. Qed.

Lemma delivered_once_snoc (t : trace) (n : notification) :
  sends t = [] -> delivered_once (t ++ [Send n]).
Proof. intros H. by exists t, n. Qed.

Section Delivery.

Context {W : Type} (sagemaker : Client.t W).

(** A run of the handler on a Create, Update or Delete event either returns
    with one notification, sent last, or is a Create that is still polling and
    has sent nothing. *)
Lemma lambda_handler_outcome (fuel : nat) (ev : event) (w : W) :
  RequestType ev ∈ ["Create"; "Update"; "Delete"] ->
  (exists w' t, lambda_handler sagemaker fuel ev w = (w', t, Returns tt) /\ delivered_once t)
  \/ (RequestType ev = "Create"
      /\ exists w1 res w2 w3 t,
          Client.create_studio_lifecycle_config sagemaker (lifecycle_config_name ev)
            (config_content (AutoStopIdleTimeInMinutes (ResourceProperties ev))) APP_TYPE w
          = (w1, Ok res)
          /\ Client.update_domain sagemaker (DomainId (ResourceProperties ev)) "ENABLED" w1
             = (w2, Ok tt)
          /\ update_domain_loop sagemaker fuel (DomainId (ResourceProperties ev)) w2
             = (w3, t, OutOfFuel)
          /\ exists t', lambda_handler sagemaker fuel ev w = (w3, t', OutOfFuel) /\ sends t' = []).
Proof.
  rewrite !elem_of_cons, elem_of_nil. intros [Hreq|[Hreq|[Hreq|[]]]].
  - rewrite lambda_handler_create by done. cbn zeta.
    destruct (Client.create_studio_lifecycle_config sagemaker _ _ _ w) as [w1 [res|e]] eqn:C.
    + destruct (update_domain sagemaker fuel _ w1) as [[w2 t] r] eqn:U.
      pose proof (update_domain_sends _ _ _ _ _ _ _ U) as [Hs _].
      destruct r as [dom|e|].
      * left. eexists _, _. split; [done|].
        by apply (delivered_once_snoc (Call _ :: t)).
      * left. eexists _, _. split; [done|].
        by apply (delivered_once_snoc (Call _ :: t)).
      * right. split; [done|]. rewrite update_domain_run in U.
        destruct (Client.update_domain sagemaker _ "ENABLED" w1) as [v [[]|e]] eqn:U';
          [|done].
        destruct (update_domain_loop sagemaker fuel _ v) as [[v' t'] r'] eqn:L.
        injection U as <- <- ->. exists w1, res, v, v', t'.
        do 3 (split; [done|]). eexists. split; [done|]. by rewrite sends_call.
    + left. eexists _, _. split; [done|]. by apply (delivered_once_snoc [Call _]).
  - left. rewrite lambda_handler_update by done. cbn zeta.
    destruct (PhysicalResourceId ev) as [prior|].
    + case_decide.
      * eexists _, _. split; [done|]. by apply (delivered_once_snoc []).
      * destruct (Client.describe_studio_lifecycle_config sagemaker _ w) as [w1 [res|e]];
          eexists _, _; (split; [done|]); by apply (delivered_once_snoc [Call _]).
    + eexists _, _. split; [done|]. by apply (delivered_once_snoc []).
  - left. rewrite lambda_handler_delete by done. cbn zeta.
    destruct (Client.list_studio_lifecycle_configs sagemaker APP_TYPE w) as [w1 [lcs|e]].
    + case_decide.
      * destruct (Client.delete_studio_lifecycle_config sagemaker _ w1) as [w2 [[]|[]]];
          eexists _, _; (split; [done|]); by apply (delivered_once_snoc [Call _; Call _]).
      * eexists _, _. split; [done|]. by apply (delivered_once_snoc [Call _]).
    + eexists _, _. split; [done|]. by apply (delivered_once_snoc [Call _]).
Qed.

End Delivery.






(** * Further properties *)

(** ** Error paths and edges of the handler *)

Lemma not_terminal (s : string) :
  s ∉ TERMINAL -> s <> "InService" /\ s ∉ ["Failed"; "Update_Failed"; "Delete_Failed"].
Proof. unfold TERMINAL. rewrite not_elem_of_cons. tauto. Qed.

Section MoreHandlerFacts.

Context {W : Type} (sagemaker : Client.t W).

Lemma update_domain_loop_keeps_polling (d : string) (w w1 : W) (rs : list Client.domain)
    (fuel : nat) :
  describes sagemaker d w rs w1 ->
  Forall (fun r => Client.Status r ∉ TERMINAL) rs ->
  update_domain_loop sagemaker (length rs + fuel) d w =
  let '(w2, t, r) := update_domain_loop sagemaker fuel d w1 in
  (w2, polls d (length rs) ++ t, r).
Proof.
  induction 1 as [w|w w0 r rs w1 D _ IH]; intros Hrs.
  - cbn [length Nat.add polls replicate concat app].
    by destruct (update_domain_loop sagemaker fuel d w) as [[w2 t] r].
  - apply Forall_cons in Hrs as [[? ?]%not_terminal Hrs].
    cbn [length Nat.add]. rewrite update_domain_loop_step, D.
    repeat case_decide; try done.
    rewrite IH by done.
    by destruct (update_domain_loop sagemaker fuel d w1) as [[w2 t] r'].
Qed.




End MoreHandlerFacts.

(** X1.  A request type that is not exactly [Create], [Update] or [Delete]
    (the comparison is case sensitive) takes no branch of the handler: no
    client call, no notification, a normal return. *)
Theorem unknown_request_type_sends_nothing {W : Type} (sagemaker : Client.t W) (fuel : nat)
    (ev : event) (w : W) :
  RequestType ev ∉ ["Create"; "Update"; "Delete"] ->
  lambda_handler sagemaker fuel ev w = (w, [], Returns tt).
Proof.
  rewrite !not_elem_of_cons. intros (Hc & Hu & Hd & _).
  unfold lambda_handler, try_except, try_body.
  by repeat case_decide.
Qed.

Lemma unknown_request_type_sends_nothing_witness :
  lambda_handler Fake.sagemaker 3
    {| RequestType := "create"; ResourceProperties := Fake.props; PhysicalResourceId := None |}
    Fake.fresh
  = (Fake.fresh, [], Returns tt).
Proof. apply unknown_request_type_sends_nothing. compute_done. Defined.

(** X2.  An Update event without a [PhysicalResourceId] fails on the lookup of
    that key: the handler calls nothing and sends one failure whose reason is
    the quoted key name and whose physical id is [None]. *)
Theorem update_without_prior_id_fails {W : Type} (sagemaker : Client.t W) (fuel : nat)
    (ev : event) (w : W) :
  RequestType ev = "Update" ->
  PhysicalResourceId ev = None ->
  lambda_handler sagemaker fuel ev w =
    (w, [Send {| responseStatus := FAILED;
                 responseData := [("Error", "'PhysicalResourceId'")];
                 physicalResourceId := None;
                 reason := Some "'PhysicalResourceId'" |}], Returns tt).
Proof.
  intros Hreq Hnone. rewrite lambda_handler_update by done. cbn zeta. rewrite Hnone.
  unfold failure_notification. by rewrite Hnone.
Qed.

Lemma update_without_prior_id_fails_witness :
  lambda_handler Fake.sagemaker 0 (Fake.update_event None) Fake.fresh =
    (Fake.fresh, [Send {| responseStatus := FAILED;
                          responseData := [("Error", "'PhysicalResourceId'")];
                          physicalResourceId := None;
                          reason := Some "'PhysicalResourceId'" |}], Returns tt).
Proof. by apply update_without_prior_id_fails. Defined.

(** X3.  The failures of a Delete.  When the list call raises, the handler
    issues no delete call and reports that exception.  When the name is listed
    and the delete call raises anything but [ResourceNotFound], the exception
    is raised again and reported as the failure. *)
Theorem delete_reports_client_errors {W : Type} (sagemaker : Client.t W) (fuel : nat)
    (ev : event) (w : W) :
  RequestType ev = "Delete" ->
  let name := lifecycle_config_name ev in
  let listing := Call (Client.ListStudioLifecycleConfigs "CodeEditor") in
  let failure e := Send {| responseStatus := FAILED;
                           responseData := [("Error", exn_str e)];
                           physicalResourceId := PhysicalResourceId ev;
                           reason := Some (exn_str e) |} in
  (forall w1 e,
      Client.list_studio_lifecycle_configs sagemaker "CodeEditor" w = (w1, Err e) ->
      lambda_handler sagemaker fuel ev w = (w1, [listing; failure e], Returns tt))
  /\ (forall w1 lcs w2 e,
         Client.list_studio_lifecycle_configs sagemaker "CodeEditor" w = (w1, Ok lcs) ->
         name ∈ map Client.StudioLifecycleConfigName lcs ->
         Client.delete_studio_lifecycle_config sagemaker name w1 = (w2, Err e) ->
         (forall msg, e <> ResourceNotFound msg) ->
         lambda_handler sagemaker fuel ev w =
           (w2, [listing; Call (Client.DeleteStudioLifecycleConfig name); failure e],
            Returns tt)).
Proof.
  intros Hreq name listing failure. split.
  - intros w1 e Hl. rewrite lambda_handler_delete by done. cbn zeta.
    change APP_TYPE with "CodeEditor". by rewrite Hl.
  - intros w1 lcs w2 e Hl Hin Hd Hne. rewrite lambda_handler_delete by done. cbn zeta.
    change APP_TYPE with "CodeEditor". rewrite Hl. fold name. case_decide; [|done].
    rewrite Hd. destruct e; try done. by destruct (Hne msg).
Qed.

Lemma delete_reports_client_errors_witness :
  lambda_handler (Faulty.sagemaker Faulty.ListFails) 0 Fake.delete_event Fake.provisioned =
    (Fake.provisioned,
     [Call (Client.ListStudioLifecycleConfigs "CodeEditor");
      Send {| responseStatus := FAILED;
              responseData := [("Error", "ThrottlingException: Rate exceeded")];
              physicalResourceId := Some "d-1_30";
              reason := Some "ThrottlingException: Rate exceeded" |}], Returns tt)
  /\ lambda_handler (Faulty.sagemaker Faulty.DeleteFails) 0 Fake.delete_event Fake.provisioned =
       (Fake.provisioned,
        [Call (Client.ListStudioLifecycleConfigs "CodeEditor");
         Call (Client.DeleteStudioLifecycleConfig "myconfig");
         Send {| responseStatus := FAILED;
                 responseData := [("Error", "ThrottlingException: Rate exceeded")];
                 physicalResourceId := Some "d-1_30";
                 reason := Some "ThrottlingException: Rate exceeded" |}], Returns tt).
Proof.
  split.
  - apply (proj1 (delete_reports_client_errors (Faulty.sagemaker Faulty.ListFails) 0
                    Fake.delete_event Fake.provisioned eq_refl) Fake.provisioned
             Faulty.throttled).
    reflexivity.
  - apply (proj2 (delete_reports_client_errors (Faulty.sagemaker Faulty.DeleteFails) 0
                    Fake.delete_event Fake.provisioned eq_refl) Fake.provisioned
             [Fake.config] Fake.provisioned Faulty.throttled);
      [reflexivity | compute_done | reflexivity | discriminate].
Defined.

(** X4.  A Create whose create call raises stops there: the domain is neither
    updated nor described, and the one notification is the failure that
    carries the exception. *)
Theorem create_error_skips_domain_update {W : Type} (sagemaker : Client.t W) (fuel : nat)
    (ev : event) (w w1 : W) (e : exn) :
  let name := lifecycle_config_name ev in
  let content := config_content (AutoStopIdleTimeInMinutes (ResourceProperties ev)) in
  RequestType ev = "Create" ->
  Client.create_studio_lifecycle_config sagemaker name content "CodeEditor" w = (w1, Err e) ->
  lambda_handler sagemaker fuel ev w =
    (w1, [Call (Client.CreateStudioLifecycleConfig name content "CodeEditor");
          Send {| responseStatus := FAILED;
                  responseData := [("Error", exn_str e)];
                  physicalResourceId := PhysicalResourceId ev;
                  reason := Some (exn_str e) |}], Returns tt).
Proof.
  intros name content Hreq Hc. rewrite lambda_handler_create by done. cbn zeta.
  fold name content. change APP_TYPE with "CodeEditor". by rewrite Hc.
Qed.

Lemma create_error_skips_domain_update_witness :
  lambda_handler Fake.sagemaker 3 Fake.create_event Fake.provisioned =
    (Fake.provisioned,
     [Call (Client.CreateStudioLifecycleConfig "myconfig" (config_content 30) "CodeEditor");
      Send {| responseStatus := FAILED;
              responseData := [("Error", "ResourceInUse: myconfig")];
              physicalResourceId := None;
              reason := Some "ResourceInUse: myconfig" |}], Returns tt).
Proof.
  apply (create_error_skips_domain_update Fake.sagemaker 3 Fake.create_event Fake.provisioned
           Fake.provisioned (ClientError "ResourceInUse: myconfig")); reflexivity.
Defined.

(** ** The waiter beyond its seven statuses *)

(** X5.  [update_domain] hands on what the client raises.  When the update
    call raises, the domain is never described.  When a describe call raises
    after some polls, the loop ends with that exception, at once and without
    a further sleep. *)
Theorem update_domain_propagates_errors {W : Type} (sagemaker : Client.t W) (d : string)
    (fuel : nat) (w w0 : W) :
  (forall e,
      Client.update_domain sagemaker d "ENABLED" w = (w0, Err e) ->
      update_domain sagemaker fuel d w = (w0, [Call (Client.UpdateDomain d "ENABLED")], Raises e))
  /\ (forall rs w1 w2 e,
         Client.update_domain sagemaker d "ENABLED" w = (w0, Ok tt) ->
         describes sagemaker d w0 rs w1 ->
         Forall (fun r => Client.Status r ∉ TERMINAL) rs ->
         Client.describe_domain sagemaker d w1 = (w2, Err e) ->
         update_domain sagemaker (length rs + S fuel) d w =
           (w2, Call (Client.UpdateDomain d "ENABLED")
                :: polls d (length rs) ++ [Call (Client.DescribeDomain d)], Raises e)).
Proof.
  split.
  - intros e Hu. by rewrite update_domain_run, Hu.
  - intros rs w1 w2 e Hu Hrs Hnt Hd. rewrite update_domain_run, Hu.
    rewrite (update_domain_loop_keeps_polling _ _ _ _ _ _ Hrs Hnt).
    by rewrite update_domain_loop_step, Hd.
Qed.

Lemma update_domain_propagates_errors_witness :
  update_domain (Faulty.sagemaker Faulty.UpdateDomainFails) 5 "d-1" Fake.fresh =
    (Fake.fresh, [Call (Client.UpdateDomain "d-1" "ENABLED")], Raises Faulty.throttled)
  /\ update_domain (Faulty.sagemaker Faulty.DescribeDomainFails) (2 + 1) "d-1" Fake.fresh =
       ({| Fake.configs := []; Fake.script := []; Fake.steady := "InService" |},
        Call (Client.UpdateDomain "d-1" "ENABLED")
        :: polls "d-1" 2 ++ [Call (Client.DescribeDomain "d-1")], Raises Faulty.throttled).
Proof.
  split.
  - by apply (proj1 (update_domain_propagates_errors
                       (Faulty.sagemaker Faulty.UpdateDomainFails) "d-1" 5 Fake.fresh
                       Fake.fresh)).
  - apply (proj2 (update_domain_propagates_errors
                    (Faulty.sagemaker Faulty.DescribeDomainFails) "d-1" 0 Fake.fresh
                    Fake.fresh)
             [Fake.domain_in "Updating"; Fake.domain_in "Pending"]
             {| Fake.configs := []; Fake.script := []; Fake.steady := "InService" |});
      [reflexivity | | repeat constructor; compute_done | reflexivity].
    eapply describes_cons; [reflexivity|]. eapply describes_cons; [reflexivity|].
    apply describes_nil.
Defined.

(** X6.  The loop compares the status with four strings, case sensitively.
    Every other answer, known to the service or not, counts as not yet done:
    the loop sleeps ten seconds and describes the domain again, and it never
    raises on such a status. *)
Theorem update_domain_polls_on_any_other_status {W : Type} (sagemaker : Client.t W)
    (d : string) (fuel : nat) (w w0 w1 : W) (rs : list Client.domain) :
  Client.update_domain sagemaker d "ENABLED" w = (w0, Ok tt) ->
  describes sagemaker d w0 rs w1 ->
  Forall (fun r => Client.Status r ∉ ["InService"; "Failed"; "Update_Failed"; "Delete_Failed"])
         rs ->
  update_domain sagemaker (length rs + fuel) d w =
  let '(w2, t, r) := update_domain_loop sagemaker fuel d w1 in
  (w2, Call (Client.UpdateDomain d "ENABLED") :: polls d (length rs) ++ t, r).
Proof.
  intros Hu Hrs Hnt. rewrite update_domain_run, Hu.
  rewrite (update_domain_loop_keeps_polling _ _ _ _ _ _ Hrs Hnt).
  by destruct (update_domain_loop sagemaker fuel d w1) as [[w2 t] r].
Qed.

Lemma update_domain_polls_on_any_other_status_witness :
  update_domain Fake.sagemaker (2 + 1) "d-1"
    {| Fake.configs := []; Fake.script := ["inservice"; "FAILED"]; Fake.steady := "InService" |}
  = ({| Fake.configs := []; Fake.script := []; Fake.steady := "InService" |},
     [Call (Client.UpdateDomain "d-1" "ENABLED");
      Call (Client.DescribeDomain "d-1"); Sleep 10;
      Call (Client.DescribeDomain "d-1"); Sleep 10;
      Call (Client.DescribeDomain "d-1")],
     Returns (Fake.domain_in "InService")).
Proof.
  apply (update_domain_polls_on_any_other_status Fake.sagemaker "d-1" 1
           {| Fake.configs := []; Fake.script := ["inservice"; "FAILED"];
              Fake.steady := "InService" |}
           {| Fake.configs := []; Fake.script := ["inservice"; "FAILED"];
              Fake.steady := "InService" |}
           {| Fake.configs := []; Fake.script := []; Fake.steady := "InService" |}
           [Fake.domain_in "inservice"; Fake.domain_in "FAILED"]);
    [reflexivity | | repeat constructor; compute_done].
  eapply describes_cons; [reflexivity|]. eapply describes_cons; [reflexivity|].
  apply describes_nil.
Defined.



(** ** What a branch does and does not touch *)

(** X8.  An Update never changes the control plane and never waits: whatever
    the event carries and whatever the control plane answers, the run ends
    (for any fuel), none of its calls is a create, a delete or a domain
    update, and it sleeps at no point. *)
Theorem update_is_read_only {W : Type} (sagemaker : Client.t W) (fuel : nat)
    (ev : event) (w : W) :
  RequestType ev = "Update" ->
  exists w' t,
    lambda_handler sagemaker fuel ev w = (w', t, Returns tt)
    /\ Forall (fun c => Client.mutates c = false) (calls t)
    /\ (forall s, Sleep s ∉ t).
Proof.
  intros Hreq. rewrite lambda_handler_update by done. cbn zeta.
  assert (forall (n : notification) s, Sleep s ∉ [Send n]) as H1.
  { intros n s. rewrite not_elem_of_cons. split; [done | apply not_elem_of_nil]. }
  assert (forall c (n : notification) s, Sleep s ∉ [Call c; Send n]) as H2.
  { intros c n s. rewrite !not_elem_of_cons. repeat split; try done. apply not_elem_of_nil. }
  destruct (PhysicalResourceId ev) as [prior|].
  - case_decide.
    + eexists _, _. repeat split; [constructor | apply H1].
    + destruct (Client.describe_studio_lifecycle_config sagemaker _ w) as [w1 [res|e]];
        eexists _, _; (repeat split; [by repeat constructor | apply H2]).
  - eexists _, _. repeat split; [constructor | apply H1].
Qed.

Lemma update_is_read_only_witness :
  exists w' t,
    lambda_handler Fake.sagemaker 0 (Fake.update_event (Some "d-1_30")) Fake.fresh
    = (w', t, Returns tt)
    /\ Forall (fun c => Client.mutates c = false) (calls t)
    /\ (forall s, Sleep s ∉ t).
Proof. by apply update_is_read_only. Defined.

(** X9.  A Create from end to end.  With the configuration created and the
    update call accepted, the domain is described once per answer; answers
    other than the four terminal statuses each cost one sleep of ten seconds.
    On [InService] the handler then sends the success with the ARN and the
    derived id; on a failure status it sends the failure with the message
    about the status, and the id the event carried. *)
Theorem create_end_to_end {W : Type} (sagemaker : Client.t W) (fuel : nat) (ev : event)
    (w w1 w2 w3 w4 : W) (res : Client.lifecycle_config) (rs : list Client.domain)
    (dom : Client.domain) :
  let name := lifecycle_config_name ev in
  let content := config_content (AutoStopIdleTimeInMinutes (ResourceProperties ev)) in
  let d := DomainId (ResourceProperties ev) in
  let before := Call (Client.CreateStudioLifecycleConfig name content "CodeEditor")
                :: Call (Client.UpdateDomain d "ENABLED")
                :: polls d (length rs) ++ [Call (Client.DescribeDomain d)] in
  RequestType ev = "Create" ->
  Client.create_studio_lifecycle_config sagemaker name content "CodeEditor" w = (w1, Ok res) ->
  Client.update_domain sagemaker d "ENABLED" w1 = (w2, Ok tt) ->
  describes sagemaker d w2 rs w3 ->
  Forall (fun r => Client.Status r ∉ TERMINAL) rs ->
  Client.describe_domain sagemaker d w3 = (w4, Ok dom) ->
  (Client.Status dom = "InService" ->
   lambda_handler sagemaker (length rs + S fuel) ev w =
     (w4, before ++ [Send {| responseStatus := SUCCESS;
                             responseData := [("Arn", Client.StudioLifecycleConfigArn res)];
                             physicalResourceId := Some (physical_resource_id ev);
                             reason := None |}], Returns tt))
  /\ (Client.Status dom ∈ ["Failed"; "Update_Failed"; "Delete_Failed"] ->
      let msg := "Space is in '" +:+ Client.Status dom +:+ "' state." in
      lambda_handler sagemaker (length rs + S fuel) ev w =
        (w4, before ++ [Send {| responseStatus := FAILED;
                                responseData := [("Error", msg)];
                                physicalResourceId := PhysicalResourceId ev;
                                reason := Some msg |}], Returns tt)).
Proof.
  intros name content d before Hreq Hc Hu Hrs Hnt Hd.
  assert (update_domain sagemaker (length rs + S fuel) d w1 =
          let '(v, t, r) := update_domain_loop sagemaker (S fuel) d w3 in
          (v, Call (Client.UpdateDomain d "ENABLED") :: polls d (length rs) ++ t, r)) as Hrun.
  { rewrite update_domain_run, Hu.
    rewrite (update_domain_loop_keeps_polling _ _ _ _ _ _ Hrs Hnt).
    by destruct (update_domain_loop sagemaker (S fuel) d w3) as [[v t] r]. }
  rewrite update_domain_loop_step, Hd in Hrun.
  rewrite lambda_handler_create by done. cbn zeta. fold name content d.
  change APP_TYPE with "CodeEditor". rewrite Hc, Hrun. clear Hrun. split.
  - intros Hs. case_decide; [|done]. unfold before. cbn [app].
    by rewrite <- !app_assoc.
  - intros Hf. pose proof (failure_not_in_service _ Hf).
    repeat case_decide; try done; unfold before; cbn [app]; by rewrite <- !app_assoc.
Qed.

Lemma create_end_to_end_witness :
  lambda_handler Fake.sagemaker (2 + 1) Fake.create_event Fake.fresh =
    (Fake.provisioned,
     (Call (Client.CreateStudioLifecycleConfig "myconfig" (config_content 30) "CodeEditor")
      :: Call (Client.UpdateDomain "d-1" "ENABLED")
      :: polls "d-1" 2 ++ [Call (Client.DescribeDomain "d-1")])
     ++ [Send {| responseStatus := SUCCESS;
                 responseData := [("Arn", Fake.arn_of "myconfig")];
                 physicalResourceId := Some "d-1_30";
                 reason := None |}], Returns tt).
Proof.
  refine (proj1 (create_end_to_end Fake.sagemaker 0 Fake.create_event Fake.fresh
                   {| Fake.configs := [Fake.config]; Fake.script := ["Updating"; "Pending"];
                      Fake.steady := "InService" |}
                   {| Fake.configs := [Fake.config]; Fake.script := ["Updating"; "Pending"];
                      Fake.steady := "InService" |}
                   Fake.provisioned Fake.provisioned Fake.config
                   [Fake.domain_in "Updating"; Fake.domain_in "Pending"]
                   (Fake.domain_in "InService") eq_refl eq_refl eq_refl _ _ eq_refl) eq_refl).
  - eapply describes_cons; [reflexivity|]. eapply describes_cons; [reflexivity|].
    apply describes_nil.
  - repeat constructor; compute_done.
Defined.

(** ** Characters and occurrences *)

Lemma mentions_app (c : ascii) (a b : string) :
  mentions c (a +:+ b) = mentions c a || mentions c b.
Proof.
  induction a as [|x a IH]; [done|].
  rewrite append_cons. cbn [mentions]. by destruct (Ascii.eqb c x).
Qed.

Lemma mentions_head (c : ascii) (s : string) : mentions c (String c s) = true.
Proof. cbn [mentions]. by rewrite Ascii.eqb_refl. Qed.

Lemma mentions_cons (c a : ascii) (s : string) :
  mentions c (String a s) = true -> c = a \/ mentions c s = true.
Proof.
  cbn [mentions]. destruct (Ascii.eqb_spec c a); auto.
Qed.

Lemma length_app (a b : string) :
  String.length (a +:+ b) = (String.length a + String.length b)%nat.
Proof. induction a as [|x a IH]; [done|]. rewrite append_cons. cbn [String.length]. lia. Qed.

Lemma is_prefix_split (p s : string) : is_prefix p s = true -> exists rest, s = p +:+ rest.
Proof.
  revert s. induction p as [|a p IH]; intros s; [by exists s|].
  destruct s as [|b s]; [done|]. cbn [is_prefix].
  destruct (Ascii.eqb_spec a b) as [->|]; [|done].
  intros [rest ->]%IH. by exists rest.
Qed.

Lemma occurrences_cons (p : string) (x : ascii) (s : string) :
  occurrences p (String x s)
  = ((if is_prefix p (String x s) then 1 else 0) + occurrences p s)%nat.
Proof. reflexivity. Qed.

(** A character that the pattern does not hold stops every match that would
    run over it. *)
Lemma is_prefix_before (c : ascii) (p x r : string) :
  mentions c p = false -> is_prefix p (x +:+ String c r) = is_prefix p x.
Proof.
  revert x. induction p as [|a p IH]; intros x Hc; [by destruct x|].
  cbn [mentions] in Hc. destruct (Ascii.eqb_spec c a) as [|Hne]; [done|].
  destruct x as [|b x].
  - rewrite append_nil_l. cbn [is_prefix]. by destruct (Ascii.eqb_spec a c) as [->|].
  - rewrite append_cons. cbn [is_prefix]. destruct (Ascii.eqb a b); [by apply IH | done].
Qed.

Lemma occurrences_sep (c : ascii) (p a b : string) :
  mentions c p = false ->
  occurrences p (a +:+ String c b)
  = (occurrences p a + occurrences p (String c b))%nat.
Proof.
  intros Hc. induction a as [|x a IH]; [done|].
  rewrite append_cons, !(occurrences_cons p x), <- append_cons.
  rewrite is_prefix_before by done. rewrite IH. lia.
Qed.

(** ** The digits of [str] *)

Lemma pretty_N_char_numeral (x : N) : mentions (pretty_N_char x) "0123456789" = true.
Proof. unfold pretty_N_char. by repeat case_match. Qed.

Lemma pretty_N_go_chars (x : N) (s : string) (c : ascii) :
  mentions c (pretty_N_go x s) = true ->
  mentions c "0123456789" = true \/ mentions c s = true.
Proof.
  revert s. induction (N.lt_wf_0 x) as [x _ IH]; intros s.
  assert (x = 0 \/ 0 < x)%N as [->|?] by lia.
  - rewrite pretty_N_go_0. auto.
  - rewrite pretty_N_go_step by done. intros Hm.
    apply IH in Hm as [?|Hm]; [auto| |by apply N.div_lt].
    apply mentions_cons in Hm as [->|?]; auto using pretty_N_char_numeral.
Qed.

Lemma pretty_N_go_length (x : N) (s : string) :
  (String.length s <= String.length (pretty_N_go x s))%nat.
Proof.
  revert s. induction (N.lt_wf_0 x) as [x _ IH]; intros s.
  assert (x = 0 \/ 0 < x)%N as [->|?] by lia.
  - by rewrite pretty_N_go_0.
  - rewrite pretty_N_go_step by done.
    etrans; [|apply IH; by apply N.div_lt]. cbn [String.length]. lia.
Qed.

Lemma pretty_N_chars (x : N) (c : ascii) :
  mentions c (pretty x) = true -> mentions c "0123456789" = true.
Proof.
  unfold pretty, pretty_N. case_decide; [by intros [->|?]%mentions_cons|].
  by intros [?|?]%pretty_N_go_chars.
Qed.

Lemma pretty_N_nonempty (x : N) : (0 < String.length (pretty x))%nat.
Proof.
  unfold pretty, pretty_N. case_decide; [cbn; lia|].
  rewrite pretty_N_go_step by lia.
  eapply Nat.lt_le_trans; [|apply pretty_N_go_length]. cbn [String.length]. lia.
Qed.

(** [str] writes digits, after a minus sign for a negative number, and writes
    at least one character. *)
Lemma str_chars (n : Z) (c : ascii) : mentions c (str n) = true -> is_numeral_char c = true.
Proof.
  assert (forall d, mentions d "0123456789" = true -> is_numeral_char d = true) as Hd.
  { intros d. unfold is_numeral_char. cbn [mentions].
    repeat (destruct (Ascii.eqb d _); [done|]). done. }
  unfold str, pretty, pretty_Z. destruct n as [|p|p].
  - intros [->|?]%mentions_cons; done.
  - intros ?%pretty_N_chars. auto.
  - rewrite mentions_app. intros [H|?%pretty_N_chars]%orb_true_iff; [|auto].
    by apply mentions_cons in H as [->|?].
Qed.

Lemma str_nonempty (n : Z) : exists c rest, str n = String c rest.
Proof.
  assert (0 < String.length (str n))%nat as H.
  { unfold str, pretty, pretty_Z. destruct n as [|p|p]; [cbn; lia| |].
    - apply (pretty_N_nonempty (N.pos p)).
    - rewrite length_app. cbn [String.length]. lia. }
  destruct (str n) as [|c rest]; [cbn in H; lia | eauto].
Qed.

(** ** [str.replace] leaves no occurrence behind *)

Lemma last_char_cons (a : ascii) (s : string) :
  s <> EmptyString -> last_char (String a s) = last_char s.
Proof. by destruct s. Qed.

(** A pattern that starts a text beginning with [n] either ends inside [n] or
    runs over all of it. *)
Lemma is_prefix_overlap (q n z : string) :
  q <> EmptyString -> n <> EmptyString ->
  is_prefix q (n +:+ z) = true ->
  (exists cl, last_char q = Some cl /\ mentions cl n = true)
  \/ (forall c, mentions c n = true -> mentions c q = true).
Proof.
  revert n. induction q as [|x q IH]; intros n Hq Hn; [done|].
  destruct n as [|y n]; [done|]. rewrite append_cons. cbn [is_prefix].
  destruct (Ascii.eqb_spec x y) as [<-|]; [|done]. intros Hp.
  destruct q as [|x' q].
  { left. exists x. split; [done | apply mentions_head]. }
  destruct n as [|y' n].
  { right. intros c [->|?]%mentions_cons; [apply mentions_head | done]. }
  destruct (IH (String y' n)) as [(cl & Hl & Hm)|Hall]; [done..| |].
  - left. exists cl. split; [by rewrite last_char_cons|].
    cbn [mentions] in *. by destruct (Ascii.eqb cl x).
  - right. intros c [->|Hc]%mentions_cons; [apply mentions_head|].
    apply Hall in Hc. cbn [mentions] in *. by destruct (Ascii.eqb c x).
Qed.

Section ReplaceAll.

Variables (c0 cl : ascii) (old' new : string).
Let old : string := String c0 old'.

Hypothesis first_fresh : mentions c0 new = false.
Hypothesis last_is : last_char (String c0 old') = Some cl.
Hypothesis last_fresh : mentions cl new = false.
Hypothesis new_fresh : exists d, mentions d new = true /\ mentions d (String c0 old') = false.

Lemma replace_from_match (rest : string) :
  replace_from old new 0 (old +:+ rest) = new +:+ replace_from old new 0 rest.
Proof.
  pose proof (is_prefix_app old rest) as Hp. pose proof (replace_from_skip c0 old' new old' rest).
  unfold old in *. rewrite append_cons in *. cbn [replace_from]. rewrite Hp. by f_equal.
Qed.

Lemma replace_from_no_match (c : ascii) (t : string) :
  is_prefix old (String c t) = false ->
  replace_from old new 0 (String c t) = String c (replace_from old new 0 t).
Proof. intros H. cbn [replace_from]. by rewrite H. Qed.

Lemma occurrences_skip_new (n z : string) :
  mentions c0 n = false -> occurrences old (n +:+ z) = occurrences old z.
Proof.
  induction n as [|a n IH]; [done|]. cbn [mentions].
  destruct (Ascii.eqb_spec c0 a) as [|Hne]; [done|]. intros Hn.
  rewrite append_cons, occurrences_cons, IH by done.
  unfold old. cbn [is_prefix]. by destruct (Ascii.eqb_spec c0 a).
Qed.

(** No part of the pattern that reaches its end can start at a replacement. *)
Lemma suffix_not_at_new (a q z : string) :
  old = a +:+ q -> q <> EmptyString -> is_prefix q (new +:+ z) = false.
Proof.
  intros Hold Hq. destruct (is_prefix q (new +:+ z)) eqn:Hp; [exfalso|done].
  destruct new_fresh as (d & Hd & Hdo).
  assert (new <> EmptyString) as Hn by (intros E; by rewrite E in Hd).
  assert (last_char q = Some cl) as Hlast.
  { rewrite <- last_is. fold old. rewrite Hold. clear -Hq.
    induction a as [|x a IH]; [done|]. rewrite append_cons, last_char_cons; [done|].
    destruct a; [by rewrite append_nil_l | by rewrite append_cons]. }
  apply is_prefix_overlap in Hp as [(c & Hc & Hm)|Hall]; [|apply Hall in Hd|done..].
  - rewrite Hlast in Hc. injection Hc as <-. by rewrite last_fresh in Hm.
  - fold old in Hdo. rewrite Hold, mentions_app, Hd in Hdo. by destruct (mentions d a).
Qed.

(** A part of the pattern that starts the result started the text. *)
Lemma suffix_at_result (t a q : string) :
  old = a +:+ q ->
  is_prefix q (replace_from old new 0 t) = true -> is_prefix q t = true.
Proof.
  revert a q. induction t as [|c t IH]; intros a q Hold; [done|].
  destruct q as [|x q]; [done|].
  destruct (is_prefix old (String c t)) eqn:Hm.
  - apply is_prefix_split in Hm as [rest ->]. rewrite replace_from_match.
    by rewrite (suffix_not_at_new a).
  - rewrite replace_from_no_match by done. cbn [is_prefix].
    destruct (Ascii.eqb x c); [|done]. apply (IH (a +:+ String x EmptyString)).
    rewrite Hold. clear. induction a as [|y a IH]; [done|].
    by rewrite !append_cons, IH.
Qed.

(** After the replacement the pattern occurs nowhere. *)
Lemma replace_leaves_none (t : string) : occurrences old (replace t old new) = 0%nat.
Proof.
  unfold replace. remember (String.length t) as n eqn:Hn.
  revert t Hn. induction (lt_wf n) as [n _ IH]; intros t ->.
  destruct t as [|c t]; [done|].
  destruct (is_prefix old (String c t)) eqn:Hm.
  - apply is_prefix_split in Hm as [rest E]. rewrite E, replace_from_match.
    rewrite occurrences_skip_new by done. eapply IH; [|done].
    rewrite E, length_app. unfold old. cbn [String.length]. lia.
  - rewrite replace_from_no_match, occurrences_cons by done.
    rewrite (IH (String.length t)) by (cbn [String.length]; done || lia).
    destruct (is_prefix old (String c (replace_from old new 0 t))) eqn:Hp; [exfalso|done].
    unfold old in Hp, Hm. cbn [is_prefix] in Hp, Hm.
    destruct (Ascii.eqb c0 c); [|done].
    apply (suffix_at_result t (String c0 EmptyString) old') in Hp; [|done].
    by rewrite Hp in Hm.
Qed.

End ReplaceAll.

(** X10.  Whatever the idle minutes, [str.replace] leaves no placeholder token
    in any template, and the script that [create_lifecycle_config] encodes
    holds none: the token cannot reach the control plane. *)
Theorem script_holds_no_placeholder (idle_mins : Z) (template : string) :
  occurrences PLACEHOLDER (replace template PLACEHOLDER (str idle_mins)) = 0%nat
  /\ occurrences PLACEHOLDER (lcc idle_mins) = 0%nat.
Proof.
  assert (forall n t, occurrences PLACEHOLDER (replace t PLACEHOLDER (str n)) = 0%nat) as Hall.
  { intros n t. change PLACEHOLDER with (String "_" "_AUTO_STOP_IDLE_TIME__").
    assert (mentions "_" (str n) = false) as Hu.
    { destruct (mentions "_" (str n)) eqn:E; [|done]. by apply str_chars in E. }
    apply (replace_leaves_none "_" "_"); [done | done | done|].
    destruct (str_nonempty n) as (c & rest & E).
    exists c. split; [rewrite E; apply mentions_head|].
    assert (is_numeral_char c = true) as Hc by (apply (str_chars n); rewrite E; apply mentions_head).
    clear E. revert Hc. destruct c as [[] [] [] [] [] [] [] []]; vm_compute; by intros. }
  split; [apply Hall|].
  unfold lcc. destruct (0 <? idle_mins); [|vm_compute; reflexivity].
  change nl with (String (Ascii.ascii_of_nat 10) EmptyString).
  rewrite append_cons, append_nil_l, occurrences_sep by (vm_compute; reflexivity).
  rewrite occurrences_cons, Hall.
  assert (occurrences PLACEHOLDER LCC_TEMPLATE = 0%nat) as -> by (vm_compute; reflexivity).
  change PLACEHOLDER with (String "_" "_AUTO_STOP_IDLE_TIME__"). cbn [is_prefix].
  done.
Qed.

(** ** The physical resource id, across domains *)

Lemma underscore_split (d1 d2 s1 s2 : string) :
  mentions "_" s1 = false -> mentions "_" s2 = false ->
  d1 +:+ "_" +:+ s1 = d2 +:+ "_" +:+ s2 -> d1 = d2 /\ s1 = s2.
Proof.
  intros H1 H2. revert d2. induction d1 as [|c d1 IH]; intros [|c' d2];
    rewrite ?append_cons, ?append_nil_l.
  - by intros [= ->].
  - intros [= <- E]. rewrite E, mentions_app, mentions_head in H1.
    by destruct (mentions "_" d2).
  - intros [= -> E]. rewrite <- E, mentions_app, mentions_head in H2.
    by destruct (mentions "_" d1).
  - intros [= -> E]. by destruct (IH _ E) as [-> ->].
Qed.

(** X11.  The physical resource id determines both the domain id and the idle
    minutes, since [str] writes no underscore.  So the check of the Update
    branch lets an event through only when both are those the prior id was
    derived from: a change of the domain id alone is refused too, with the
    message about [AutoStopIdleTimeInMinutes]. *)
Theorem physical_resource_id_injective {W : Type} (sagemaker : Client.t W) (fuel : nat)
    (ev ev0 : event) (w : W) :
  (physical_resource_id ev = physical_resource_id ev0
   <-> DomainId (ResourceProperties ev) = DomainId (ResourceProperties ev0)
       /\ AutoStopIdleTimeInMinutes (ResourceProperties ev)
          = AutoStopIdleTimeInMinutes (ResourceProperties ev0))
  /\ (RequestType ev = "Update" ->
      PhysicalResourceId ev = Some (physical_resource_id ev0) ->
      DomainId (ResourceProperties ev) <> DomainId (ResourceProperties ev0)
      \/ AutoStopIdleTimeInMinutes (ResourceProperties ev)
         <> AutoStopIdleTimeInMinutes (ResourceProperties ev0) ->
      lambda_handler sagemaker fuel ev w =
        (w, [Send {| responseStatus := FAILED;
                     responseData := [("Error", UNSUPPORTED_UPDATE)];
                     physicalResourceId := Some (physical_resource_id ev0);
                     reason := Some UNSUPPORTED_UPDATE |}], Returns tt)).
Proof.
  assert (physical_resource_id ev = physical_resource_id ev0
          <-> DomainId (ResourceProperties ev) = DomainId (ResourceProperties ev0)
              /\ AutoStopIdleTimeInMinutes (ResourceProperties ev)
                 = AutoStopIdleTimeInMinutes (ResourceProperties ev0)) as Hiff.
  { unfold physical_resource_id. split; [|by intros [-> ->]].
    assert (forall n, mentions "_" (str n) = false) as Hu.
    { intros n. destruct (mentions "_" (str n)) eqn:E; [|done]. by apply str_chars in E. }
    intros [? ?%str_inj]%underscore_split; auto. }
  split; [exact Hiff|].
  intros Hreq Hprior Hne. rewrite lambda_handler_update by done. cbn zeta. rewrite Hprior.
  case_decide as Hd.
  - unfold failure_notification. by rewrite Hprior.
  - exfalso. apply Hiff in Hd as [? ?]. by destruct Hne.
Qed.

Lemma physical_resource_id_injective_witness :
  let moved := {| RequestType := "Update";
                  ResourceProperties :=
                    {| DomainId := "d-2"; LifecycleConfigName := "MyConfig";
                       AutoStopIdleTimeInMinutes := 30 |};
                  PhysicalResourceId := Some "d-1_30" |} in
  lambda_handler Fake.sagemaker 0 moved Fake.provisioned =
    (Fake.provisioned,
     [Send {| responseStatus := FAILED;
              responseData := [("Error", UNSUPPORTED_UPDATE)];
              physicalResourceId := Some "d-1_30";
              reason := Some UNSUPPORTED_UPDATE |}], Returns tt).
Proof.
  intros moved.
  apply (proj2 (physical_resource_id_injective Fake.sagemaker 0 moved Fake.create_event
                  Fake.provisioned)); [reflexivity | reflexivity |].
  left. discriminate.
Defined.

(** ** The template generator *)

(** X12.  The text that [generate] hands to [yaml.safe_load] holds no
    name-suffix token, whatever the template text; a template without the
    token is handed over as it is. *)
Theorem named_template_holds_no_token (template_str : string) :
  occurrences NAME_TOKEN (named_template template_str) = 0%nat
  /\ (occurrences NAME_TOKEN template_str = 0%nat -> named_template template_str = template_str).
Proof.
  unfold named_template. change NAME_TOKEN with (String "_" "_NAME__SUFFIX__"). split.
  - apply (replace_leaves_none "_" "_"); [vm_compute; reflexivity..|].
    exists ":"%char. split; vm_compute; reflexivity.
  - apply replace_from_absent.
Qed.

Lemma named_template_holds_no_token_witness :
  named_template "Name: lcc-only" = "Name: lcc-only"
  /\ named_template "Name: lcc-__NAME__SUFFIX__" = "Name: lcc-" +:+ NAME_SUFFIX.
Proof.
  split; [|reflexivity].
  apply (proj2 (named_template_holds_no_token "Name: lcc-only")). reflexivity.
Defined.

(** ** The configuration name *)

Lemma lower_char_idempotent (c : ascii) : lower_char (lower_char c) = lower_char c.
Proof. by destruct c as [[] [] [] [] [] [] [] []]. Qed.

Lemma lower_idempotent (s : string) : lower (lower s) = lower s.
Proof.
  induction s as [|c s IH]; [done|]. cbn [lower]. by rewrite lower_char_idempotent, IH.
Qed.

(** X13.  The handler reads the configuration name only through [lower()]:
    two events that differ at most in the case of [LifecycleConfigName] run
    alike, on every control plane, and lower-casing the name beforehand
    changes nothing. *)
Theorem config_name_case_is_ignored {W : Type} (sagemaker : Client.t W) (fuel : nat)
    (ev ev' : event) (w : W) :
  (RequestType ev = RequestType ev' ->
   PhysicalResourceId ev = PhysicalResourceId ev' ->
   DomainId (ResourceProperties ev) = DomainId (ResourceProperties ev') ->
   AutoStopIdleTimeInMinutes (ResourceProperties ev)
   = AutoStopIdleTimeInMinutes (ResourceProperties ev') ->
   lower (LifecycleConfigName (ResourceProperties ev))
   = lower (LifecycleConfigName (ResourceProperties ev')) ->
   lambda_handler sagemaker fuel ev w = lambda_handler sagemaker fuel ev' w)
  /\ lambda_handler sagemaker fuel ev w =
     lambda_handler sagemaker fuel
       {| RequestType := RequestType ev;
          ResourceProperties :=
            {| DomainId := DomainId (ResourceProperties ev);
               LifecycleConfigName := lower (LifecycleConfigName (ResourceProperties ev));
               AutoStopIdleTimeInMinutes := AutoStopIdleTimeInMinutes (ResourceProperties ev) |};
          PhysicalResourceId := PhysicalResourceId ev |} w.
Proof.
  assert (forall e e' : event,
             RequestType e = RequestType e' ->
             PhysicalResourceId e = PhysicalResourceId e' ->
             DomainId (ResourceProperties e) = DomainId (ResourceProperties e') ->
             AutoStopIdleTimeInMinutes (ResourceProperties e)
             = AutoStopIdleTimeInMinutes (ResourceProperties e') ->
             lower (LifecycleConfigName (ResourceProperties e))
             = lower (LifecycleConfigName (ResourceProperties e')) ->
             lambda_handler sagemaker fuel e w = lambda_handler sagemaker fuel e' w) as H.
  { intros [rt [d n m] p] [rt' [d' n' m'] p']. cbn [RequestType PhysicalResourceId
      ResourceProperties DomainId AutoStopIdleTimeInMinutes LifecycleConfigName].
    intros <- <- <- <- Hn.
    unfold lambda_handler, try_body, send_failure, lifecycle_config_name, physical_resource_id.
    cbn [RequestType PhysicalResourceId ResourceProperties DomainId
           AutoStopIdleTimeInMinutes LifecycleConfigName].
    by rewrite Hn. }
  split; [apply H|]. apply H; try done. cbn. by rewrite lower_idempotent.
Qed.

Lemma config_name_case_is_ignored_witness :
  lambda_handler Fake.sagemaker 0 Fake.delete_event Fake.provisioned
  = lambda_handler Fake.sagemaker 0
      {| RequestType := "Delete";
         ResourceProperties :=
           {| DomainId := "d-1"; LifecycleConfigName := "MYCONFIG";
              AutoStopIdleTimeInMinutes := 30 |};
         PhysicalResourceId := Some "d-1_30" |} Fake.provisioned.
Proof.
  apply (proj1 (config_name_case_is_ignored Fake.sagemaker 0 Fake.delete_event _
                  Fake.provisioned)); reflexivity.
Defined.

(** ** Never two notifications *)

(** X14.  On any event at all, a request type outside the three included, and
    for any length of run, the handler has sent at most one notification and
    has let no exception out. *)
Theorem at_most_one_notification {W : Type} (sagemaker : Client.t W) (fuel : nat)
    (ev : event) (w : W) :
  (length (sends (lambda_handler sagemaker fuel ev w).1.2) <= 1)%nat
  /\ forall e, (lambda_handler sagemaker fuel ev w).2 <> Raises e.
Proof.
  destruct (decide (RequestType ev ∈ ["Create"; "Update"; "Delete"])) as [Hin|Hout].
  - destruct (lambda_handler_outcome sagemaker fuel ev w Hin)
      as [(w' & t & E & t0 & n & Et & Hs)|(_ & _ & _ & _ & w3 & _ & _ & _ & _ & t' & E & Hs)];
      rewrite E; cbn [fst snd]; (split; [|done]).
    + subst t. unfold sends in *. rewrite omap_app, Hs. cbn. lia.
    + rewrite Hs. cbn. lia.
  - rewrite lambda_handler_other by done. split; [cbn; lia | done].
Qed.

(** ** The bytes of the content *)



(** ** The shape of the base64 text *)

Lemma b64_digit_is_char (i : N) :
  (i < 64)%N -> is_b64_char (Ascii.ascii_of_byte (b64_digit i)) = true.
Proof.
  intros Hi. unfold b64_digit. assert (N.to_nat i < 64)%nat as Hn by lia.
  revert Hn. generalize (N.to_nat i) as n. intros n.
  do 64 (destruct n as [|n]; [vm_compute; reflexivity|]). lia.
Qed.

Lemma sextet_bounds (x : Byte.byte) :
  let n := Byte.to_N x in
  (N.shiftr n 2 < 64 /\ N.shiftl (N.land n 3) 4 < 64 /\ N.shiftl (N.land n 15) 2 < 64
   /\ N.land n 63 < 64 /\ N.land n 3 < 4 /\ N.shiftr n 4 < 16 /\ N.land n 15 < 16
   /\ N.shiftr n 6 < 4)%N.
Proof. destruct x; vm_compute; repeat split. Qed.

Lemma lor_sextet_4 (k j : N) : (k < 4 -> j < 16 -> N.lor (N.shiftl k 4) j < 64)%N.
Proof.
  intros Hk Hj.
  assert (k = 0 \/ k = 1 \/ k = 2 \/ k = 3)%N as Ck by lia.
  assert (j = 0 \/ j = 1 \/ j = 2 \/ j = 3 \/ j = 4 \/ j = 5 \/ j = 6 \/ j = 7 \/ j = 8
          \/ j = 9 \/ j = 10 \/ j = 11 \/ j = 12 \/ j = 13 \/ j = 14 \/ j = 15)%N as Cj by lia.
  clear Hk Hj.
  repeat (destruct Ck as [->|Ck]); try subst k;
    repeat (destruct Cj as [->|Cj]); try subst j; vm_compute; reflexivity.
Qed.

Lemma lor_sextet_2 (k j : N) : (k < 16 -> j < 4 -> N.lor (N.shiftl k 2) j < 64)%N.
Proof.
  intros Hk Hj.
  assert (j = 0 \/ j = 1 \/ j = 2 \/ j = 3)%N as Cj by lia.
  assert (k = 0 \/ k = 1 \/ k = 2 \/ k = 3 \/ k = 4 \/ k = 5 \/ k = 6 \/ k = 7 \/ k = 8
          \/ k = 9 \/ k = 10 \/ k = 11 \/ k = 12 \/ k = 13 \/ k = 14 \/ k = 15)%N as Ck by lia.
  clear Hk Hj.
  repeat (destruct Ck as [->|Ck]); try subst k;
    repeat (destruct Cj as [->|Cj]); try subst j; vm_compute; reflexivity.
Qed.

Lemma b64encode_shape (bs : bytes) :
  Forall (fun b => is_b64_char (Ascii.ascii_of_byte b) = true) (b64encode bs)
  /\ length (b64encode bs) = (4 * ((length bs + 2) / 3))%nat.
Proof.
  set (P := fun l : bytes =>
              Forall (fun b => is_b64_char (Ascii.ascii_of_byte b) = true) (b64encode l)
              /\ length (b64encode l) = (4 * ((length l + 2) / 3))%nat).
  cut (P bs /\ (forall a, P (a :: bs)) /\ (forall a a', P (a :: a' :: bs))); [by intros [? _]|].
  assert (is_b64_char (Ascii.ascii_of_byte b64_pad) = true) as Hpad by (vm_compute; reflexivity).
  induction bs as [|c bs (IH0 & IH1 & IH2)].
  - split; [|split]; [split; [constructor | reflexivity] | |].
    + intros a. pose proof (sextet_bounds a) as (? & ? & ? & ? & ? & ? & ? & ?).
      split; [|reflexivity]. cbn [b64encode].
      repeat constructor; auto using b64_digit_is_char.
    + intros a a'. pose proof (sextet_bounds a) as (? & ? & ? & ? & ? & ? & ? & ?).
      pose proof (sextet_bounds a') as (? & ? & ? & ? & ? & ? & ? & ?).
      split; [|reflexivity]. cbn [b64encode].
      repeat constructor; auto using b64_digit_is_char, lor_sextet_4.
  - split; [apply IH1|]. split; [intros; apply IH2|].
    intros a a'. destruct IH0 as [IHa IHb].
    pose proof (sextet_bounds a) as (? & ? & ? & ? & ? & ? & ? & ?).
    pose proof (sextet_bounds a') as (? & ? & ? & ? & ? & ? & ? & ?).
    pose proof (sextet_bounds c) as (? & ? & ? & ? & ? & ? & ? & ?).
    split; cbn [b64encode].
    + repeat (constructor; [auto using b64_digit_is_char, lor_sextet_4, lor_sextet_2|]).
      exact IHa.
    + cbn [length]. rewrite IHb.
      replace (S (S (S (length bs))) + 2)%nat with ((length bs + 2) + 1 * 3)%nat by lia.
      rewrite Nat.div_add by done. lia.
Qed.

Lemma encode_utf8_length (s : string) :
  (forall c, mentions c s = true -> (Ascii.N_of_ascii c < 128)%N) ->
  length (encode_utf8 s) = String.length s.
Proof.
  induction s as [|a s IH]; [done|]. intros H.
  cbn [encode_utf8 String.length]. unfold encode_char.
  destruct (N.ltb_spec (Ascii.N_of_ascii a) 128) as [_|Hge].
  - cbn [app length]. f_equal. apply IH. intros c Hc. apply H.
    cbn [mentions]. by destruct (Ascii.eqb c a).
  - pose proof (H a (mentions_head a s)). lia.
Qed.

Lemma string_of_bytes_length (bs : bytes) : String.length (string_of_bytes bs) = length bs.
Proof. induction bs as [|b bs IH]; [done|]. cbn [string_of_bytes String.length length]. lia. Qed.

Lemma string_of_bytes_chars (P : ascii -> Prop) (bs : bytes) (c : ascii) :
  Forall (fun b => P (Ascii.ascii_of_byte b)) bs ->
  mentions c (string_of_bytes bs) = true -> P c.
Proof.
  induction 1 as [|b bs Hb _ IH]; [done|]. cbn [string_of_bytes].
  by intros [->|?]%mentions_cons; auto.
Qed.

Lemma mentions_app_or (c : ascii) (a b : string) :
  mentions c (a +:+ b) = true -> mentions c a = true \/ mentions c b = true.
Proof. rewrite mentions_app. apply orb_true_iff. Qed.

Lemma lcc_positive (N : Z) :
  0 < N ->
  lcc N = LCC_TEMPLATE +:+ nl +:+ auto_stop_parts.1 +:+ str (60 * N) +:+ auto_stop_parts.2.
Proof.
  intros HN. unfold lcc. destruct (Z.ltb_spec 0 N) as [_|]; [|lia].
  rewrite auto_stop_split.
  change PLACEHOLDER with (String "_" "_AUTO_STOP_IDLE_TIME__").
  rewrite replace_once; [reflexivity | vm_compute; reflexivity].
Qed.

(** The script is plain ASCII, for every idle time. *)
Lemma lcc_ascii (idle_mins : Z) (c : ascii) :
  mentions c (lcc idle_mins) = true -> (Ascii.N_of_ascii c < 128)%N.
Proof.
  assert (mentions c LCC_TEMPLATE = true -> (Ascii.N_of_ascii c < 128)%N) as H1.
  { destruct c as [[] [] [] [] [] [] [] []]; vm_compute; by intros. }
  assert (mentions c nl = true -> (Ascii.N_of_ascii c < 128)%N) as H2.
  { destruct c as [[] [] [] [] [] [] [] []]; vm_compute; by intros. }
  assert (mentions c auto_stop_parts.1 = true -> (Ascii.N_of_ascii c < 128)%N) as H3.
  { destruct c as [[] [] [] [] [] [] [] []]; vm_compute; by intros. }
  assert (mentions c auto_stop_parts.2 = true -> (Ascii.N_of_ascii c < 128)%N) as H4.
  { destruct c as [[] [] [] [] [] [] [] []]; vm_compute; by intros. }
  assert (forall n, mentions c (str n) = true -> (Ascii.N_of_ascii c < 128)%N) as Hstr.
  { intros n Hc%str_chars. revert Hc.
    destruct c as [[] [] [] [] [] [] [] []]; vm_compute; by intros. }
  destruct (Z.ltb_spec 0 idle_mins) as [Hpos|Hle].
  - rewrite lcc_positive by done. intros H.
    apply mentions_app_or in H as [H|H]; [exact (H1 H)|].
    apply mentions_app_or in H as [H|H]; [exact (H2 H)|].
    apply mentions_app_or in H as [H|H]; [exact (H3 H)|].
    apply mentions_app_or in H as [H|H]; [exact (Hstr _ H) | exact (H4 H)].
  - unfold lcc. destruct (Z.ltb_spec 0 idle_mins); [lia | exact H1].
Qed.

(** X16.  The content of the create call is base64 text: each of its
    characters is a letter, a digit, [+], [/] or the padding sign, and its
    length is four characters for every three characters of the script,
    rounded up. *)
Theorem config_content_is_base64_text (idle_mins : Z) :
  (forall c, mentions c (config_content idle_mins) = true ->
             mentions c "ABCDEFGHIJKLMNOPQRSTUVWXYZabcdefghijklmnopqrstuvwxyz0123456789+/="
             = true)
  /\ String.length (config_content idle_mins)
     = (4 * ((String.length (lcc idle_mins) + 2) / 3))%nat.
Proof.
  unfold config_content.
  destruct (b64encode_shape (encode_utf8 (lcc idle_mins))) as [Hchars Hlen]. split.
  - intros c Hc.
    apply (string_of_bytes_chars (fun a => is_b64_char a = true)) in Hc; [|done].
    revert Hc. destruct c as [[] [] [] [] [] [] [] []]; vm_compute; by intros.
  - rewrite string_of_bytes_length, Hlen, encode_utf8_length; [done|].
    apply lcc_ascii.
Qed.

Lemma config_content_is_base64_text_witness :
  mentions "I" "ABCDEFGHIJKLMNOPQRSTUVWXYZabcdefghijklmnopqrstuvwxyz0123456789+/=" = true.
Proof.
  apply (proj1 (config_content_is_base64_text 0) "I"%char). vm_compute. reflexivity.
Defined.
